(** * Prayer-times engine of BitBarPrayerTimes (src/prayer_times.py)

    A shallow embedding of the [PrayTimes] class.  Python floats are IEEE
    binary64 values (Stdlib's [spec_float] at precision 53, rounding to
    nearest even), Python exceptions are an explicit outcome, dictionaries
    are [gmap]s keyed by strings, and the C math library behind [math.sin]
    and its siblings is an interface the engine is parametrised by.
    Integer results ([math.floor], [/] on ints) follow Python 3. *)

From Stdlib Require Import ZArith String Ascii List Bool Lia.
From Stdlib Require Import Floats.SpecFloat.
From stdpp Require Import base option gmap strings list fin_maps pretty.

Local Open Scope Z_scope.

(** ** Python outcomes *)

Inductive exn :=
  | ValueError | ZeroDivisionError | OverflowError
  | AttributeError | KeyError | TypeError | IndexError.

Inductive py (A : Type) :=
  | Ret (a : A)
  | Raise (e : exn).
Arguments Ret {A} a.
Arguments Raise {A} e.

#[global] Instance exn_eq_dec : EqDecision exn.
Proof. solve_decision. Defined.

#[global] Instance py_ret : MRet py := @Ret.
#[global] Instance py_bind : MBind py := λ A B f m,
  match m with Ret a => f a | Raise e => Raise e end.

(** [try: body  except e: handler] *)
Definition try_except {A} (body : py A) (e : exn) (handler : py A) : py A :=
  match body with
  | Raise e' => if decide (e' = e) then handler else Raise e'
  | r => r
  end.

(** ** Binary64 floats *)

Module F64.

Abbreviation float := spec_float.

Definition prec : Z := 53.
Definition emax : Z := 1024.

Definition nan : float := S754_nan.
Definition zero : float := S754_zero false.

Definition add : float → float → float := SFadd prec emax.
Definition sub : float → float → float := SFsub prec emax.
Definition mul : float → float → float := SFmul prec emax.
Definition div : float → float → float := SFdiv prec emax.
Definition sqrt : float → float := SFsqrt prec emax.
Definition opp : float → float := SFopp.
Definition abs : float → float := SFabs.
Definition ltb : float → float → bool := SFltb.
Definition leb : float → float → bool := SFleb.
Definition eqb : float → float → bool := SFeqb.

Definition is_nan (x : float) : bool :=
  match x with S754_nan => true | _ => false end.
Definition is_inf (x : float) : bool :=
  match x with S754_infinity _ => true | _ => false end.
Definition is_zero (x : float) : bool :=
  match x with S754_zero _ => true | _ => false end.
Definition is_finite (x : float) : bool :=
  match x with S754_zero _ | S754_finite _ _ _ => true | _ => false end.

(** The integer [z] rounded to the nearest float, ties to even. *)
Definition of_Z (z : Z) : float := binary_normalize prec emax z 0 false.

(** The decimal literal [n]e-[k], correctly rounded: the quotient of the
    two integers is rounded once. *)
Definition dec (n : Z) (k : nat) : float :=
  match n with
  | Z0 => zero
  | Zpos p => div (S754_finite false p 0) (S754_finite false (Z.to_pos (10 ^ Z.of_nat k)) 0)
  | Zneg p => div (S754_finite true p 0) (S754_finite false (Z.to_pos (10 ^ Z.of_nat k)) 0)
  end.

(** Floor of a finite float, as an integer. *)
Definition floor_finite (s : bool) (m : positive) (e : Z) : Z :=
  Z.shiftl (cond_Zopp s (Zpos m)) e.

End F64.

Arguments F64.add _ _ : simpl never.
Arguments F64.sub _ _ : simpl never.
Arguments F64.mul _ _ : simpl never.
Arguments F64.div _ _ : simpl never.
Arguments F64.sqrt _ : simpl never.
Arguments F64.opp _ : simpl never.
Arguments F64.abs _ : simpl never.
Arguments F64.ltb _ _ : simpl never.
Arguments F64.of_Z _ : simpl never.
Arguments F64.dec _ _ : simpl never.

Declare Scope f64_scope.
Delimit Scope f64_scope with f64.
Infix "+" := F64.add : f64_scope.
Infix "-" := F64.sub : f64_scope.
Infix "*" := F64.mul : f64_scope.
Infix "/" := F64.div : f64_scope.
Notation "- x" := (F64.opp x) : f64_scope.
Infix "<?" := F64.ltb : f64_scope.

(** ** The parts of Python's runtime the engine calls *)

Module Py.

Import F64.

(** [x / y] on floats: a zero divisor raises. *)
Definition truediv (x y : float) : py float :=
  if is_zero y then Raise ZeroDivisionError else Ret (x / y)%f64.

(** [float(z)] for an int [z], as in mixed int/float arithmetic. *)
Definition float_of_int (z : Z) : py float :=
  let x := of_Z z in
  if is_inf x then Raise OverflowError else Ret x.

(** [math.floor] (Python 3: the result is an int). *)
Definition floor (x : float) : py Z :=
  match x with
  | S754_nan => Raise ValueError
  | S754_infinity _ => Raise OverflowError
  | S754_zero _ => Ret 0
  | S754_finite s m e => Ret (floor_finite s m e)
  end.

Definition isnan (x : float) : bool := is_nan x.

(** [math.pi], the binary64 value 0x400921FB54442D18. *)
Definition pi : float := S754_finite false 7074237752028440 (-51).

Definition degToRad : float := (pi / of_Z 180)%f64.
Definition radToDeg : float := (of_Z 180 / pi)%f64.

Definition radians (x : float) : float := (x * degToRad)%f64.
Definition degrees (x : float) : float := (x * radToDeg)%f64.

(** CPython's [math_1] wrapper around a libm function that cannot
    overflow: a NaN result for a non-NaN argument, or an infinite result
    for a finite argument, is a domain error. *)
Definition math_1 (func : float → float) (x : float) : py float :=
  let r := func x in
  if is_nan r && negb (is_nan x) then Raise ValueError
  else if is_inf r && is_finite x then Raise ValueError
  else Ret r.

Definition sqrt (x : float) : py float := math_1 F64.sqrt x.

End Py.

(** ** The platform: C math library and float printing

    [math.sin] and the other trigonometric functions of Python call the C
    library; the engine is stated over any library.  The two laws are the
    C99 (Annex F) domain errors that [math.acos] and [math.asin] turn into
    [ValueError].  [float_repr] is [str] of a float. *)

Class Platform := {
  libm_sin : F64.float → F64.float;
  libm_cos : F64.float → F64.float;
  libm_tan : F64.float → F64.float;
  libm_asin : F64.float → F64.float;
  libm_acos : F64.float → F64.float;
  libm_atan : F64.float → F64.float;
  libm_atan2 : F64.float → F64.float → F64.float;
  float_repr : F64.float → string;
  libm_acos_edom x :
    F64.ltb (F64.of_Z 1) x = true ∨ F64.ltb x (F64.of_Z (-1)) = true →
    libm_acos x = F64.nan;
  libm_asin_edom x :
    F64.ltb (F64.of_Z 1) x = true ∨ F64.ltb x (F64.of_Z (-1)) = true →
    libm_asin x = F64.nan;
}.

(** ** Parameter values

    A method parameter or a setting is [None], a number or a string. *)

Inductive pval :=
  | PNone
  | PInt (z : Z)
  | PFloat (x : F64.float)
  | PStr (s : string).

(** [v == s] for a string literal [s] *)
Definition pval_eq_str (v : pval) (s : string) : bool :=
  match v with PStr s' => String.eqb s' s | _ => false end.

(** A formatted time: the float itself under the 'Float' format, a string
    otherwise. *)
Inductive ftime :=
  | FFloat (x : F64.float)
  | FStr (s : string).

(** ** Text helpers *)

(** the class [0-9.+-] that the pattern of [eval] negates *)
Definition numeric_char (c : ascii) : bool :=
  let n := N_of_ascii c in
  ((48 <=? n) && (n <=? 57))%N || (n =? 46)%N || (n =? 43)%N || (n =? 45)%N.

Definition is_digit (c : ascii) : bool :=
  let n := N_of_ascii c in ((48 <=? n) && (n <=? 57))%N.

(** [re.split(pattern, s, 1)[0]] for a pattern that matches exactly the
    single characters [sep]: the text before the first such character,
    the whole text when there is none. *)
Fixpoint re_split_head (sep : ascii → bool) (s : string) : string :=
  match s with
  | EmptyString => EmptyString
  | String c s' => if sep c then EmptyString else String c (re_split_head sep s')
  end.

(** Digits of a literal, most significant first, accumulated in base 10. *)
Fixpoint read_digits (s : string) (acc : Z) : Z * nat * string :=
  match s with
  | String c s' =>
      if is_digit c
      then let '(n, k, r) := read_digits s' (10 * acc + (Z.of_N (N_of_ascii c) - 48)) in
           (n, S k, r)
      else (acc, O, s)
  | EmptyString => (acc, O, s)
  end.

(** [float(s)] for a text over the characters [0-9.+-]: an optional sign,
    then digits with at most one point and at least one digit.  The value
    is the decimal rounded to the nearest float; anything else is a
    [ValueError].  (Exponents, blanks, underscores, 'inf' and 'nan', which
    [float] also reads, need characters outside this class.) *)
Definition float_of_str (s : string) : py F64.float :=
  let '(neg, body) :=
    match s with
    | String c r =>
        if Ascii.eqb c "-" then (true, r)
        else if Ascii.eqb c "+" then (false, r)
        else (false, s)
    | EmptyString => (false, s)
    end in
  let '(ip, ni, rest) := read_digits body 0 in
  let '(n, nf, rest') :=
    match rest with
    | String c r => if Ascii.eqb c "." then read_digits r ip else (ip, O, rest)
    | EmptyString => (ip, O, rest)
    end in
  match rest' with
  | EmptyString =>
      if (ni + nf =? 0)%nat then Raise ValueError
      else if (n =? 0) then Ret (S754_zero neg)
      else Ret (F64.dec (if neg then - n else n) nf)
  | _ => Raise ValueError
  end.

(** [s.find(sub) > -1] *)
Fixpoint str_contains (sub s : string) : bool :=
  String.prefix sub s ||
  match s with
  | EmptyString => false
  | String _ s' => str_contains sub s'
  end.

(** ** Dictionaries *)

(** [d[k]] *)
Definition getitem {V} (d : gmap string V) (k : string) : py V :=
  match d !! k with Some v => Ret v | None => Raise KeyError end.

(** [for k, v in upd.items(): d[k] = v] *)
Definition setitems {V} (upd d : gmap string V) : gmap string V :=
  map_fold (λ k v acc, <[k := v]> acc) d upd.

(** [{k: f(v) for k, v in d.items()}], raising what the first failing
    call raises.  Python visits the entries in insertion order, the fold
    in key order; the two differ only in which of several exceptions is
    reported. *)
Definition dict_mapM {A B} (f : A → py B) (d : gmap string A) : py (gmap string B) :=
  map_fold (λ k v acc, m ← acc; b ← f v; Ret (<[k := b]> m)) (Ret ∅) d.

(** An attribute that exists only once it has been assigned. *)
Definition attr {A} (o : option A) : py A :=
  match o with Some a => Ret a | None => Raise AttributeError end.

(** ** The class *)

(** An entry of [methods]: the dictionary [{'name': ..., 'params': ...}]. *)
Record method_config := {
  m_name : string;
  m_params : gmap string pval;
}.

(** The attributes of [PrayTimes]: the class together with one instance.
    [methods], [settings] and [offset] are dictionaries of the class, which
    the instance mutates in place.  The five last attributes are assigned
    by [get_times] and do not exist before. *)
Record PrayTimes := {
  time_names : gmap string string;
  methods : gmap string method_config;
  default_params : gmap string pval;
  calc_method : string;
  settings : gmap string pval;
  time_format : string;
  time_suffixes : list string;
  invalid_time : string;
  num_iterations : nat;
  offset : gmap string F64.float;
  lat : option F64.float;
  lng : option F64.float;
  elv : option F64.float;
  timeZone : option F64.float;
  jDate : option F64.float;
}.

Definition mk_method (n : string) (ps : list (string * pval)) : method_config :=
  {| m_name := n; m_params := list_to_map ps |}.

(** The class body (lines 74-142). *)
Definition PrayTimes_class : PrayTimes := {|
  time_names := list_to_map [
    ("imsak", "Imsak"); ("fajr", "Fajr"); ("sunrise", "Sunrise");
    ("dhuhr", "Dhuhr"); ("asr", "Asr"); ("sunset", "Sunset");
    ("maghrib", "Maghrib"); ("isha", "Isha"); ("midnight", "Midnight")]%string;
  methods := list_to_map [
    ("MWL", mk_method "Muslim World League"
       [("fajr", PInt 18); ("isha", PInt 17)]);
    ("ISNA", mk_method "Islamic Society of North America (ISNA)"
       [("fajr", PInt 15); ("isha", PInt 15)]);
    ("Egypt", mk_method "Egyptian General Authority of Survey"
       [("fajr", PFloat (F64.dec 195 1)); ("isha", PFloat (F64.dec 175 1))]);
    ("Makkah", mk_method "Umm Al-Qura University, Makkah"
       [("fajr", PFloat (F64.dec 185 1)); ("isha", PStr "90 min")]);
    ("Karachi", mk_method "University of Islamic Sciences, Karachi"
       [("fajr", PInt 18); ("isha", PInt 18)]);
    ("Tehran", mk_method "Institute of Geophysics, University of Tehran"
       [("fajr", PFloat (F64.dec 177 1)); ("isha", PInt 14);
        ("maghrib", PFloat (F64.dec 45 1)); ("midnight", PStr "Jafari")]);
    ("Jafari", mk_method "Shia Ithna-Ashari, Leva Institute, Qum"
       [("fajr", PInt 16); ("isha", PInt 14);
        ("maghrib", PInt 4); ("midnight", PStr "Jafari")])]%string;
  default_params := list_to_map [
    ("maghrib", PStr "0 min"); ("midnight", PStr "Standard")]%string;
  calc_method := "ISNA";
  settings := list_to_map [
    ("imsak", PStr "10 min"); ("dhuhr", PStr "0 min");
    ("asr", PStr "Standard"); ("highLats", PStr "NightMiddle")]%string;
  time_format := "24h";
  time_suffixes := ["am"; "pm"]%string;
  invalid_time := "-----";
  num_iterations := 1;
  offset := ∅;
  lat := None; lng := None; elv := None; timeZone := None; jDate := None;
|}.

Definition with_methods (self : PrayTimes) (ms : gmap string method_config) : PrayTimes :=
  {| time_names := time_names self; methods := ms;
     default_params := default_params self; calc_method := calc_method self;
     settings := settings self; time_format := time_format self;
     time_suffixes := time_suffixes self; invalid_time := invalid_time self;
     num_iterations := num_iterations self; offset := offset self;
     lat := lat self; lng := lng self; elv := elv self;
     timeZone := timeZone self; jDate := jDate self |}.

Definition with_calc_method (self : PrayTimes) (m : string) : PrayTimes :=
  {| time_names := time_names self; methods := methods self;
     default_params := default_params self; calc_method := m;
     settings := settings self; time_format := time_format self;
     time_suffixes := time_suffixes self; invalid_time := invalid_time self;
     num_iterations := num_iterations self; offset := offset self;
     lat := lat self; lng := lng self; elv := elv self;
     timeZone := timeZone self; jDate := jDate self |}.

Definition with_settings (self : PrayTimes) (s : gmap string pval) : PrayTimes :=
  {| time_names := time_names self; methods := methods self;
     default_params := default_params self; calc_method := calc_method self;
     settings := s; time_format := time_format self;
     time_suffixes := time_suffixes self; invalid_time := invalid_time self;
     num_iterations := num_iterations self; offset := offset self;
     lat := lat self; lng := lng self; elv := elv self;
     timeZone := timeZone self; jDate := jDate self |}.

Definition with_time_format (self : PrayTimes) (f : string) : PrayTimes :=
  {| time_names := time_names self; methods := methods self;
     default_params := default_params self; calc_method := calc_method self;
     settings := settings self; time_format := f;
     time_suffixes := time_suffixes self; invalid_time := invalid_time self;
     num_iterations := num_iterations self; offset := offset self;
     lat := lat self; lng := lng self; elv := elv self;
     timeZone := timeZone self; jDate := jDate self |}.

Definition with_offset (self : PrayTimes) (o : gmap string F64.float) : PrayTimes :=
  {| time_names := time_names self; methods := methods self;
     default_params := default_params self; calc_method := calc_method self;
     settings := settings self; time_format := time_format self;
     time_suffixes := time_suffixes self; invalid_time := invalid_time self;
     num_iterations := num_iterations self; offset := o;
     lat := lat self; lng := lng self; elv := elv self;
     timeZone := timeZone self; jDate := jDate self |}.

Definition with_coords (self : PrayTimes) (la ln el : F64.float) : PrayTimes :=
  {| time_names := time_names self; methods := methods self;
     default_params := default_params self; calc_method := calc_method self;
     settings := settings self; time_format := time_format self;
     time_suffixes := time_suffixes self; invalid_time := invalid_time self;
     num_iterations := num_iterations self; offset := offset self;
     lat := Some la; lng := Some ln; elv := Some el;
     timeZone := timeZone self; jDate := jDate self |}.

Definition with_timeZone (self : PrayTimes) (tz : F64.float) : PrayTimes :=
  {| time_names := time_names self; methods := methods self;
     default_params := default_params self; calc_method := calc_method self;
     settings := settings self; time_format := time_format self;
     time_suffixes := time_suffixes self; invalid_time := invalid_time self;
     num_iterations := num_iterations self; offset := offset self;
     lat := lat self; lng := lng self; elv := elv self;
     timeZone := Some tz; jDate := jDate self |}.

Definition with_jDate (self : PrayTimes) (jd : F64.float) : PrayTimes :=
  {| time_names := time_names self; methods := methods self;
     default_params := default_params self; calc_method := calc_method self;
     settings := settings self; time_format := time_format self;
     time_suffixes := time_suffixes self; invalid_time := invalid_time self;
     num_iterations := num_iterations self; offset := offset self;
     lat := lat self; lng := lng self; elv := elv self;
     timeZone := timeZone self; jDate := Some jd |}.

(** ** Attribute lookup

    [set_method] and [tune] reach their data through attribute lookups
    whose outcome depends on the name, so names are resolved here as
    Python does. *)

(** The attributes of a [dict] object. *)
Definition dict_attrs : list string := [
  "clear"; "copy"; "fromkeys"; "get"; "items"; "keys"; "pop"; "popitem";
  "setdefault"; "update"; "values";
  "__class__"; "__class_getitem__"; "__contains__"; "__delattr__";
  "__delitem__"; "__dir__"; "__doc__"; "__eq__"; "__format__"; "__ge__";
  "__getattribute__"; "__getitem__"; "__getstate__"; "__gt__"; "__hash__";
  "__init__"; "__init_subclass__"; "__ior__"; "__iter__"; "__le__";
  "__len__"; "__lt__"; "__ne__"; "__new__"; "__or__"; "__reduce__";
  "__reduce_ex__"; "__repr__"; "__reversed__"; "__ror__"; "__setattr__";
  "__setitem__"; "__sizeof__"; "__str__"; "__subclasshook__"]%string.

(** What can be passed to [adjust]: a dictionary of parameters, or the
    bound method that an attribute of a [dict] is. *)
Inductive pyobj :=
  | ODict (d : gmap string pval)
  | OMethod (a : string).

(** [d.a] for a dict [d] *)
Definition dict_getattr (a : string) : py pyobj :=
  if bool_decide (a ∈ dict_attrs) then Ret (OMethod a) else Raise AttributeError.

(** The names bound in the class body, other than [settings] and
    [offset]. *)
Definition class_attrs : list string := [
  "time_names"; "methods"; "default_params"; "calc_method"; "time_format";
  "time_suffixes"; "invalid_time"; "num_iterations";
  "__init__"; "set_method"; "adjust"; "tune"; "get_method"; "get_settings";
  "get_offsets"; "get_defaults"; "get_times"; "get_formatted_time";
  "mid_day"; "sun_angle_time"; "asr_time"; "sun_position"; "julian";
  "compute_prayer_times"; "compute_times"; "adjust_times"; "asr_factor";
  "rise_set_angle"; "tune_times"; "modify_formats"; "adjust_high_lats";
  "adjust_HL_time"; "night_portion"; "day_portion"; "time_diff"; "eval";
  "is_min"; "sin"; "cos"; "tan"; "arcsin"; "arccos"; "arctan"; "arccot";
  "arctan2"; "fixangle"; "fixhour"; "fix"]%string.

(** The names [get_times] assigns, present once assigned. *)
Definition instance_attr (self : PrayTimes) (a : string) : bool :=
  (String.eqb a "lat" && bool_decide (is_Some (lat self)))
  || (String.eqb a "lng" && bool_decide (is_Some (lng self)))
  || (String.eqb a "elv" && bool_decide (is_Some (elv self)))
  || (String.eqb a "timeZone" && bool_decide (is_Some (timeZone self)))
  || (String.eqb a "jDate" && bool_decide (is_Some (jDate self))).

(** The object an attribute of [self] denotes. *)
Inductive attribute :=
  | ASettings
  | AOffset
  | AOther.

(** [self.a], for a name [a] that is not inherited from [object] *)
Definition getattr (self : PrayTimes) (a : string) : py attribute :=
  if String.eqb a "settings" then Ret ASettings
  else if String.eqb a "offset" then Ret AOffset
  else if bool_decide (a ∈ class_attrs) || instance_attr self a then Ret AOther
  else Raise AttributeError.

(** ** Methods that change the instance: state and outcome *)

Definition pyst (A : Type) : Type := PrayTimes → PrayTimes * py A.

#[global] Instance pyst_ret : MRet pyst := λ A a self, (self, Ret a).
#[global] Instance pyst_bind : MBind pyst := λ A B f m self,
  match m self with
  | (self', Ret a) => f a self'
  | (self', Raise e) => (self', Raise e)
  end.

Definition lift {A} (r : py A) : pyst A := λ self, (self, r).
Definition get_self : pyst PrayTimes := λ self, (self, Ret self).
Definition modify (f : PrayTimes → PrayTimes) : pyst unit := λ self, (f self, Ret tt).

(** ** Interface functions (lines 146-186) *)

(** the default-merging loop over one method's [params] *)
Definition set_default (config_params : gmap string pval) (name : string) (value : pval)
  : gmap string pval :=
  match config_params !! name with
  | None | Some PNone => <[name := value]> config_params
  | Some _ => config_params
  end.

Definition merge_defaults (defaults : gmap string pval) (config : method_config)
  : method_config :=
  {| m_name := m_name config;
     m_params := map_fold (λ name value ps, set_default ps name value)
                   (m_params config) defaults |}.

Definition __init__ (method : string) : pyst unit :=
  (* set methods defaults *)
  _ ← modify (λ self,
        with_methods self (merge_defaults (default_params self) <$> methods self));
  (* initialize settings *)
  _ ← modify (λ self,
        with_calc_method self
          (if bool_decide (is_Some (methods self !! method)) then method else "ISNA"));
  self ← get_self;
  config ← lift (getitem (methods self) (calc_method self));
  _ ← modify (λ self, with_settings self (setitems (m_params config) (settings self)));
  (* init time offsets *)
  modify (λ self,
    with_offset self
      (map_fold (λ name _ o, <[name := F64.zero]> o) (offset self) (time_names self))).

(** [self.settings.update(params)] *)
Definition adjust (params : pyobj) : pyst unit :=
  match params with
  | ODict d => modify (λ self, with_settings self (d ∪ settings self))
  | OMethod _ => lift (Raise TypeError)
  end.

Definition set_method (method : string) : pyst unit :=
  self ← get_self;
  if bool_decide (is_Some (methods self !! method)) then
    (* self.methods[method].params: an attribute of the entry, a dict *)
    _ ← lift (getitem (methods self) method);
    params ← lift (dict_getattr "params");
    _ ← adjust params;
    modify (λ self, with_calc_method self method)
  else mret tt.

(** [self.offsets.update(timeOffsets)].  Of the attributes of [self] only
    [offset] holds minutes per prayer; [settings] would receive them as
    numbers, and the others are not dictionaries of such values. *)
Definition tune (timeOffsets : gmap string F64.float) : pyst unit :=
  self ← get_self;
  target ← lift (getattr self "offsets");
  match target with
  | AOffset => modify (λ self, with_offset self (timeOffsets ∪ offset self))
  | ASettings => modify (λ self, with_settings self ((PFloat <$> timeOffsets) ∪ settings self))
  | AOther => lift (Raise TypeError)
  end.

Definition get_method (self : PrayTimes) : string := calc_method self.
Definition get_settings (self : PrayTimes) : gmap string pval := settings self.
Definition get_offsets (self : PrayTimes) : gmap string F64.float := offset self.
Definition get_defaults (self : PrayTimes) : gmap string method_config := methods self.

(** ** Calculation *)

Section Engine.

Context `{P : Platform}.

Import F64.
Local Open Scope f64_scope.

Local Notation "# z" := (F64.of_Z z) (at level 1, format "# z").

(** *** Degree-based math functions (lines 409-444) *)

Definition sin (d : float) : py float := Py.math_1 libm_sin (Py.radians d).
Definition cos (d : float) : py float := Py.math_1 libm_cos (Py.radians d).
Definition tan (d : float) : py float := Py.math_1 libm_tan (Py.radians d).

Definition arcsin (x : float) : py float :=
  r ← Py.math_1 libm_asin x; Ret (Py.degrees r).
Definition arccos (x : float) : py float :=
  r ← Py.math_1 libm_acos x; Ret (Py.degrees r).
Definition arctan (x : float) : py float :=
  r ← Py.math_1 libm_atan x; Ret (Py.degrees r).
Definition arccot (x : float) : py float :=
  q ← Py.truediv #1 x; r ← Py.math_1 libm_atan q; Ret (Py.degrees r).
Definition arctan2 (y x : float) : py float :=
  Ret (Py.degrees (libm_atan2 y x)).

Definition fix_ (a mode : float) : py float :=
  if Py.isnan a then Ret a
  else
    q ← Py.truediv a mode;
    n ← Py.floor q;
    n ← Py.float_of_int n;
    let a := a - mode * n in
    Ret (if a <? #0 then a + mode else a).

Definition fixangle (angle : float) : py float := fix_ angle #360.
Definition fixhour (hour : float) : py float := fix_ hour #24.

(** *** Misc functions (lines 394-405) *)

Definition time_diff (time1 time2 : float) : py float := fixhour (time2 - time1).

(** [str(st)], for an int of at most 4300 digits: beyond that limit
    (sys.int_info.default_max_str_digits, CPython 3.11) [str] of an int
    raises ValueError instead. *)
Definition str (st : pval) : string :=
  match st with
  | PNone => "None"
  | PInt z => pretty z
  | PFloat x => float_repr x
  | PStr s => s
  end.

Definition eval (st : pval) : py float :=
  let val := re_split_head (λ c, negb (numeric_char c)) (str st) in
  if String.eqb val "" then Ret #0 else float_of_str val.

Definition is_min (arg : pval) : bool :=
  match arg with
  | PStr s => str_contains "min" s
  | _ => false
  end.

(** *** Calculation functions (lines 224-269) *)

Definition sun_position (jd : float) : py (float * float) :=
  let D := jd - dec 24515450 1 in
  g ← fixangle (dec 357529 3 + dec 98560028 8 * D);
  q ← fixangle (dec 280459 3 + dec 98564736 8 * D);
  sg ← sin g;
  s2g ← sin (#2 * g);
  L ← fixangle (q + dec 1915 3 * sg + dec 20 3 * s2g);
  let e := dec 23439 3 - dec 36 8 * D in
  ce ← cos e;
  sL ← sin L;
  cL ← cos L;
  a ← arctan2 (ce * sL) cL;
  let RA := a / #15 in
  fRA ← fixhour RA;
  let eqt := q / #15 - fRA in
  se ← sin e;
  sL ← sin L;
  decl ← arcsin (se * sL);
  Ret (decl, eqt).

Definition mid_day (self : PrayTimes) (time : float) : py float :=
  jd ← attr (jDate self);
  '(_, eqt) ← sun_position (jd + time);
  fixhour (#12 - eqt).

Definition sun_angle_time (self : PrayTimes) (angle time : float)
    (direction : option string) : py float :=
  try_except
    (jd ← attr (jDate self);
     '(decl, _) ← sun_position (jd + time);
     noon ← mid_day self time;
     sa ← sin angle;
     sd ← sin decl;
     la ← attr (lat self);
     sl ← sin la;
     cd ← cos decl;
     la ← attr (lat self);
     cl ← cos la;
     x ← Py.truediv (- sa - sd * sl) (cd * cl);
     H ← arccos x;
     let t := #1 / #15 * H in
     Ret (noon + (if bool_decide (direction = Some "ccw"%string) then - t else t)))
    ValueError
    (Ret nan).

Definition asr_time (self : PrayTimes) (factor time : float) : py float :=
  jd ← attr (jDate self);
  '(decl, _) ← sun_position (jd + time);
  la ← attr (lat self);
  tn ← tan (abs (la - decl));
  ac ← arccot (factor + tn);
  sun_angle_time self (- ac) time None.

(** [a / b] on ints (Python 3), the exact quotient rounded once *)
Definition int_truediv (a b : Z) : py float :=
  match a, b with
  | _, Z0 => Raise ZeroDivisionError
  | Z0, _ => Ret zero
  | Zpos p, Zpos q => Ret (S754_finite false p 0 / S754_finite false q 0)
  | Zneg p, Zneg q => Ret (S754_finite false p 0 / S754_finite false q 0)
  | Zpos p, Zneg q => Ret (S754_finite true p 0 / S754_finite false q 0)
  | Zneg p, Zpos q => Ret (S754_finite true p 0 / S754_finite false q 0)
  end.

Definition julian (year month day : Z) : py float :=
  let '(year, month) :=
    if (month <=? 2)%Z then (year - 1, month + 12)%Z else (year, month) in
  y100 ← int_truediv year 100;
  A ← Py.floor y100;
  a4 ← int_truediv A 4;
  fa4 ← Py.floor a4;
  let B := (2 - A + fa4)%Z in
  y ← Py.float_of_int (year + 4716);
  t1 ← Py.floor (dec 36525 2 * y);
  m ← Py.float_of_int (month + 1);
  t2 ← Py.floor (dec 306001 4 * m);
  s ← Py.float_of_int (t1 + t2 + day + B);
  Ret (s - dec 15245 1).

(** *** Formatting (lines 204-219) *)

(** ["%02d" % n] *)
Definition fmt_02d (n : Z) : string :=
  let s := pretty n in
  if (String.length s <? 2)%nat then ("0" +:+ s)%string else s.

Definition get_formatted_time (self : PrayTimes) (time : float) (format : string)
    : py ftime :=
  if Py.isnan time then Ret (FStr (invalid_time self))
  else if String.eqb format "Float" then Ret (FFloat time)
  else
    let suffixes := time_suffixes self in
    (* add 0.5 minutes to round *)
    time ← fixhour (time + dec 5 1 / #60);
    hours ← Py.floor time;
    h ← Py.float_of_int hours;
    minutes ← Py.floor ((time - h) * #60);
    suffix ←
      (if String.eqb format "12h"
       then match suffixes !! (if (hours <? 12)%Z then 0%nat else 1%nat) with
            | Some x => Ret x
            | None => Raise IndexError
            end
       else Ret ""%string);
    let formattedTime :=
      if String.eqb format "24h"
      then (fmt_02d hours +:+ ":" +:+ fmt_02d minutes)%string
      else (pretty (((hours + 11) `mod` 12 + 1)%Z) +:+ ":" +:+ fmt_02d minutes)%string in
    Ret (FStr (formattedTime +:+ suffix)).

(** *** Compute prayer times (lines 274-390) *)

Definition day_portion (times : gmap string float) : gmap string float :=
  (λ t, t / #24) <$> times.

Definition asr_factor (asrParam : pval) : py float :=
  if pval_eq_str asrParam "Standard" then Ret #1
  else if pval_eq_str asrParam "Hanafi" then Ret #2
  else eval asrParam.

Definition rise_set_angle (elevation : float) : py float :=
  r ← Py.sqrt elevation;
  Ret (dec 833 3 + dec 347 4 * r).

Definition night_portion (self : PrayTimes) (angle night : float) : py float :=
  method ← getitem (settings self) "highLats";
  let portion := #1 / #2 in
  let portion := if pval_eq_str method "AngleBased" then #1 / #60 * angle else portion in
  let portion := if pval_eq_str method "OneSeventh" then #1 / #7 else portion in
  Ret (portion * night).

Definition adjust_HL_time (self : PrayTimes) (time base angle night : float)
    (direction : option string) : py float :=
  let ccw := bool_decide (direction = Some "ccw"%string) in
  portion ← night_portion self angle night;
  diff ← (if ccw then time_diff time base else time_diff base time);
  Ret (if Py.isnan time || (portion <? diff)
       then base + (if ccw then - portion else portion)
       else time).

Definition adjust_high_lats (self : PrayTimes) (times : gmap string float)
    : py (gmap string float) :=
  let params := settings self in
  ss ← getitem times "sunset";
  sr ← getitem times "sunrise";
  nightTime ← time_diff ss sr;
  t ← getitem times "imsak"; b ← getitem times "sunrise";
  p ← getitem params "imsak"; a ← eval p;
  v ← adjust_HL_time self t b a nightTime (Some "ccw"%string);
  let times := <["imsak" := v]> times in
  t ← getitem times "fajr"; b ← getitem times "sunrise";
  p ← getitem params "fajr"; a ← eval p;
  v ← adjust_HL_time self t b a nightTime (Some "ccw"%string);
  let times := <["fajr" := v]> times in
  t ← getitem times "isha"; b ← getitem times "sunset";
  p ← getitem params "isha"; a ← eval p;
  v ← adjust_HL_time self t b a nightTime None;
  let times := <["isha" := v]> times in
  t ← getitem times "maghrib"; b ← getitem times "sunset";
  p ← getitem params "maghrib"; a ← eval p;
  v ← adjust_HL_time self t b a nightTime None;
  Ret (<["maghrib" := v]> times).

(** The last stage of [adjust_times] (lines 321-331): settings given in
    minutes. *)
Definition adjust_times_minutes (self : PrayTimes) (times : gmap string float)
    : py (gmap string float) :=
  let params := settings self in
  p ← getitem params "imsak";
  times ←
    (if is_min p then
       f ← getitem times "fajr";
       p ← getitem params "imsak"; m ← eval p;
       Ret (<["imsak" := f - m / #60]> times)
     else Ret times);
  (* need to ask about 'min' settings *)
  p ← getitem params "maghrib";
  times ←
    (if is_min p then
       s ← getitem times "sunset";
       p ← getitem params "maghrib"; m ← eval p;
       Ret (<["maghrib" := s - m / #60]> times)
     else Ret times);
  p ← getitem params "isha";
  times ←
    (if is_min p then
       g ← getitem times "maghrib";
       p ← getitem params "isha"; m ← eval p;
       Ret (<["isha" := g - m / #60]> times)
     else Ret times);
  d ← getitem times "dhuhr";
  p ← getitem params "dhuhr"; m ← eval p;
  Ret (<["dhuhr" := d + m / #60]> times).

Definition adjust_times (self : PrayTimes) (times : gmap string float)
    : py (gmap string float) :=
  let params := settings self in
  tz ← attr (timeZone self);
  ln ← attr (lng self);
  let tzAdjust := tz - ln / #15 in
  let times := (λ v, v + tzAdjust) <$> times in
  hl ← getitem params "highLats";
  times ←
    (if negb (pval_eq_str hl "None") then adjust_high_lats self times else Ret times);
  adjust_times_minutes self times.

Definition tune_times (self : PrayTimes) (times : gmap string float)
    : py (gmap string float) :=
  if bool_decide (dom times ⊆ dom (offset self))
  then Ret (map_imap (λ name value, (λ o, value + o / #60) <$> offset self !! name) times)
  else Raise KeyError.

Definition modify_formats (self : PrayTimes) (times : gmap string float)
    : py (gmap string ftime) :=
  dict_mapM (λ t, get_formatted_time self t (time_format self)) times.

Definition compute_prayer_times (self : PrayTimes) (times : gmap string float)
    : py (gmap string float) :=
  let times := day_portion times in
  let params := settings self in
  p ← getitem params "imsak"; a ← eval p; t ← getitem times "imsak";
  imsak ← sun_angle_time self a t (Some "ccw"%string);
  p ← getitem params "fajr"; a ← eval p; t ← getitem times "fajr";
  fajr ← sun_angle_time self a t (Some "ccw"%string);
  el ← attr (elv self); a ← rise_set_angle el; t ← getitem times "sunrise";
  sunrise ← sun_angle_time self a t (Some "ccw"%string);
  t ← getitem times "dhuhr";
  dhuhr ← mid_day self t;
  p ← getitem params "asr"; a ← asr_factor p; t ← getitem times "asr";
  asr ← asr_time self a t;
  el ← attr (elv self); a ← rise_set_angle el; t ← getitem times "sunset";
  sunset ← sun_angle_time self a t None;
  p ← getitem params "maghrib"; a ← eval p; t ← getitem times "maghrib";
  maghrib ← sun_angle_time self a t None;
  p ← getitem params "isha"; a ← eval p; t ← getitem times "isha";
  isha ← sun_angle_time self a t None;
  Ret (list_to_map [
    ("imsak", imsak); ("fajr", fajr); ("sunrise", sunrise); ("dhuhr", dhuhr);
    ("asr", asr); ("sunset", sunset); ("maghrib", maghrib); ("isha", isha)]%string).

(** [for i in range(n): times = self.compute_prayer_times(times)] *)
Fixpoint main_iterations (self : PrayTimes) (n : nat) (times : gmap string float)
    : py (gmap string float) :=
  match n with
  | O => Ret times
  | S n' => times ← compute_prayer_times self times; main_iterations self n' times
  end.

(** The body of [compute_times] after the main iterations (lines 301-309). *)
Definition finish_times (self : PrayTimes) (times : gmap string float)
    : py (gmap string ftime) :=
  times ← adjust_times self times;
  (* add midnight time *)
  mn ← getitem (settings self) "midnight";
  times ←
    (if pval_eq_str mn "Jafari" then
       ss ← getitem times "sunset";
       fj ← getitem times "fajr";
       d ← time_diff ss fj;
       Ret (<["midnight" := ss + d / #2]> times)
     else
       ss ← getitem times "sunset";
       sr ← getitem times "sunrise";
       d ← time_diff ss sr;
       Ret (<["midnight" := ss + d / #2]> times));
  times ← tune_times self times;
  modify_formats self times.

Definition seed_times : gmap string float :=
  list_to_map [
    ("imsak", #5); ("fajr", #5); ("sunrise", #6); ("dhuhr", #12);
    ("asr", #13); ("sunset", #18); ("maghrib", #18); ("isha", #18)]%string.

Definition compute_times (self : PrayTimes) : py (gmap string ftime) :=
  times ← main_iterations self (num_iterations self) seed_times;
  finish_times self times.

(** *** [get_times] (lines 189-201)

    [coords] is [(lat, lng)] or [(lat, lng, elv)]; [date] is the triple
    that a [datetime.date] is first turned into; [format] is [None] or a
    format name. *)
Definition get_times (date : Z * Z * Z) (coords : float * float * option float)
    (timezone : float) (dst : bool) (format : option string)
    : pyst (gmap string ftime) :=
  let '(c0, c1, c2) := coords in
  _ ← modify (λ self, with_coords self c0 c1 (default #0 c2));
  _ ← modify (λ self,
        match format with Some f => with_time_format self f | None => self end);
  let '(year, month, day) := date in
  _ ← modify (λ self, with_timeZone self (timezone + (if dst then #1 else #0)));
  jd ← lift (julian year month day);
  _ ← modify (λ self, with_jDate self (jd - c1 / (#15 * #24)));
  self ← get_self;
  lift (compute_times self).

End Engine.

(** ** A reference platform

    An executable platform on which the engine can be run: sine, cosine
    and arctangent by range reduction and truncated power series in
    binary64 arithmetic, the other functions derived from them.  It is
    accurate to several digits, which is what running examples needs. *)

Module RefPlatform.

Import F64.
Local Open Scope f64_scope.

Local Notation "# z" := (F64.of_Z z) (at level 1, format "# z").

Definition half_pi : float := Py.pi / #2.

(** [sum_(i<n) (-1)^i y^i / (c0 (c0+1) ... )], the common shape of the
    sine and cosine series in [y = r^2], by Horner's rule from the last
    term. *)
Fixpoint alt_series (n : nat) (k : Z) (y : float) : float :=
  match n with
  | O => #1
  | S n' => #1 - y / #(k * (k + 1)) * alt_series n' (k + 2) y
  end.

Definition sin_poly (r : float) : float := r * alt_series 12 2 (r * r).
Definition cos_poly (r : float) : float := alt_series 12 1 (r * r).

Definition quadrant (x : float) : Z * float :=
  match Py.floor (x / half_pi + dec 5 1) with
  | Ret k => (k, x - #k * half_pi)
  | Raise _ => (0%Z, nan)
  end.

Definition sin (x : float) : float :=
  if negb (is_finite x) then nan
  else
    let '(k, r) := quadrant x in
    match (k `mod` 4)%Z with
    | 0%Z => sin_poly r
    | 1%Z => cos_poly r
    | 2%Z => - sin_poly r
    | _ => - cos_poly r
    end.

Definition cos (x : float) : float :=
  if negb (is_finite x) then nan
  else
    let '(k, r) := quadrant x in
    match (k `mod` 4)%Z with
    | 0%Z => cos_poly r
    | 1%Z => - sin_poly r
    | 2%Z => - cos_poly r
    | _ => sin_poly r
    end.

Definition tan (x : float) : float := sin x / cos x.

(** [sum_(i<n) (-1)^i y^i / (2i+1)] from index [k] *)
Fixpoint atan_series (n : nat) (k : Z) (y : float) : float :=
  match n with
  | O => #1 / #(2 * k + 1)
  | S n' => #1 / #(2 * k + 1) - y * atan_series n' (k + 1) y
  end.

Definition halve_tan (y : float) : float := y / (#1 + sqrt (#1 + y * y)).

(** arctangent of [0 <= y <= 1] *)
Definition atan_unit (y : float) : float :=
  let z := halve_tan (halve_tan y) in
  #4 * (z * atan_series 14 0 (z * z)).

Definition atan (x : float) : float :=
  match x with
  | S754_nan => nan
  | S754_zero _ => x
  | S754_infinity s => if s then - half_pi else half_pi
  | S754_finite s _ _ =>
      let a := abs x in
      let r := if #1 <? a then half_pi - atan_unit (#1 / a) else atan_unit a in
      if s then - r else r
  end.

Definition atan2 (y x : float) : float :=
  if is_nan x || is_nan y then nan
  else if #0 <? x then atan (y / x)
  else if x <? #0 then
    (if y <? #0 then atan (y / x) - Py.pi else atan (y / x) + Py.pi)
  else if #0 <? y then half_pi
  else if y <? #0 then - half_pi
  else #0.

Definition out_of_unit (x : float) : bool := (#1 <? x) || (x <? #(-1)).

Definition asin (x : float) : float :=
  if out_of_unit x then nan else atan2 x (sqrt ((#1 - x) * (#1 + x))).

Definition acos (x : float) : float :=
  if out_of_unit x then nan else atan2 (sqrt ((#1 - x) * (#1 + x))) x.

(** *** Printing a float: the shortest decimal that reads back *)

(** The value of a finite float as a fraction. *)
Definition to_frac (m : positive) (e : Z) : Z * Z :=
  if (0 <=? e)%Z then (Z.pos m * 2 ^ e, 1)%Z else (Z.pos m, 2 ^ (- e))%Z.

(** [n/d] rounded to the nearest integer, ties to even *)
Definition round_frac (n d : Z) : Z :=
  let q := (n `div` d)%Z in
  let r := (n `mod` d)%Z in
  match (2 * r ?= d)%Z with
  | Lt => q
  | Gt => (q + 1)%Z
  | Eq => if Z.even q then q else (q + 1)%Z
  end.

(** the greatest [k] in [lo, lo + fuel) with [10^k <= n/d], [lo] otherwise *)
Fixpoint exp10 (fuel : nat) (lo : Z) (n d : Z) : Z :=
  match fuel with
  | O => lo
  | S f =>
      let k := (lo + Z.of_nat f)%Z in
      if (if (0 <=? k)%Z then (10 ^ k * d <=? n)%Z else (d <=? n * 10 ^ (- k))%Z)
      then k else exp10 f lo n d
  end.

(** the integer [q] times [10^k], as a float *)
Definition of_digits (q k : Z) : float :=
  if (0 <=? k)%Z then of_Z (q * 10 ^ k) else dec q (Z.to_nat (- k)).

(** the first [p] in [p0, p0 + fuel) whose [p]-digit rounding of [n/d]
    reads back as [x], with its digits and the exponent of the last one *)
Fixpoint shortest (fuel : nat) (p : Z) (e10 n d : Z) (x : float) : Z * Z :=
  let k := (e10 - p + 1)%Z in
  let q := if (0 <=? k)%Z then round_frac n (d * 10 ^ k) else round_frac (n * 10 ^ (- k)) d in
  match fuel with
  | O => (q, k)
  | S f =>
      match of_digits q k, x with
      | S754_finite _ m1 e1, S754_finite _ m2 e2 =>
          if (m1 =? m2)%positive && (e1 =? e2)%Z then (q, k) else shortest f (p + 1) e10 n d x
      | _, _ => shortest f (p + 1) e10 n d x
      end
  end.

Fixpoint strip_zeros (fuel : nat) (q k : Z) : Z * Z :=
  match fuel with
  | O => (q, k)
  | S f => if (q `mod` 10 =? 0)%Z then strip_zeros f (q `div` 10)%Z (k + 1)%Z else (q, k)
  end.

Fixpoint zeros (n : nat) : string :=
  match n with O => "" | S n' => String "0" (zeros n') end.

Definition repr (x : float) : string :=
  match x with
  | S754_nan => "nan"
  | S754_infinity s => if s then "-inf" else "inf"
  | S754_zero s => if s then "-0.0" else "0.0"
  | S754_finite s m e =>
      let '(n, d) := to_frac m e in
      let e10 := exp10 640 (-324) n d in
      let '(q, k) := shortest 17 1 e10 n d (S754_finite false m e) in
      let '(q, k) := strip_zeros 17 q k in
      let ds := pretty q in
      let len := Z.of_nat (String.length ds) in
      let decpt := (len + k)%Z in
      let body :=
        if ((decpt <? -3) || (16 <? decpt))%Z then
          String.substring 0 1 ds
          +:+ (if (1 <? len)%Z then "." +:+ String.substring 1 (String.length ds - 1) ds else "")
          +:+ "e" +:+ (if (decpt - 1 <? 0)%Z then "-" else "+")
          +:+ fmt_02d (Z.abs (decpt - 1))
        else if (decpt <=? 0)%Z then
          "0." +:+ zeros (Z.to_nat (- decpt)) +:+ ds
        else if (len <=? decpt)%Z then
          ds +:+ zeros (Z.to_nat (decpt - len)) +:+ ".0"
        else
          String.substring 0 (Z.to_nat decpt) ds +:+ "."
          +:+ String.substring (Z.to_nat decpt) (String.length ds - Z.to_nat decpt) ds in
      ((if s then "-" else "") +:+ body)%string
  end.

#[export] Instance platform : Platform.
Proof.
  refine {|
    libm_sin := sin; libm_cos := cos; libm_tan := tan;
    libm_asin := asin; libm_acos := acos; libm_atan := atan;
    libm_atan2 := atan2; float_repr := repr |}.
  - intros x H. unfold acos, out_of_unit.
    destruct H as [-> | ->]; [reflexivity | by rewrite orb_true_r].
  - intros x H. unfold asin, out_of_unit.
    destruct H as [-> | ->]; [reflexivity | by rewrite orb_true_r].
Defined.

End RefPlatform.

(** * Vocabulary of the properties *)

(** ** States *)

(** The instance that [PrayTimes('ISNA')] builds from the class. *)
Definition isna : PrayTimes := fst (__init__ "ISNA" PrayTimes_class).

(** the float that the literal [-1e-20] denotes *)
Definition tiny_negative : F64.float := F64.dec (-1) 20.

(** [r] when it returned, [d] when it raised *)
Definition returned {A} (d : A) (r : py A) : A :=
  match r with Ret a => a | Raise _ => d end.

(** The ISNA engine after [get_times((2011, 12, 21), (80, 20), 1)] on the
    reference platform: the polar night at latitude 80. *)
Definition polar : PrayTimes :=
  fst (get_times (P := RefPlatform.platform) (2011, 12, 21)
         (F64.of_Z 80, F64.of_Z 20, None) (F64.of_Z 1) false None isna).

(** the times its main iterations give, and its formatted times *)
Definition polar_times : gmap string F64.float :=
  returned ∅ (main_iterations (P := RefPlatform.platform) polar 1 seed_times).

Definition polar_out : gmap string ftime :=
  returned ∅ (compute_times (P := RefPlatform.platform) polar).

(** the sunrise angle at elevation 0 and the sunrise seed, 6/24 of a day *)
Definition rise_angle : F64.float :=
  F64.add (F64.dec 833 3) (F64.mul (F64.dec 347 4) (F64.of_Z 0)).
Definition rise_seed : F64.float := F64.div (F64.of_Z 6) (F64.of_Z 24).

(** ** Arguments of the inverse functions *)

(** [x] lies outside [-1, 1] *)
Definition outside_unit (x : F64.float) : Prop :=
  F64.ltb (F64.of_Z 1) x = true ∨ F64.ltb x (F64.of_Z (-1)) = true.

(** ** The hour-angle equation *)

Section HourAngle.

Context `{P : Platform}.

Local Open Scope f64_scope.

(** The steps of [sun_angle_time] before [arccos] (lines 231-233): they
    give [mid_day(time)] and the argument of [arccos]. *)
Definition hour_angle_arg (self : PrayTimes) (angle time : F64.float)
    : py (F64.float * F64.float) :=
  jd ← attr (jDate self);
  '(decl, _) ← sun_position (jd + time);
  noon ← mid_day self time;
  sa ← sin angle;
  sd ← sin decl;
  la ← attr (lat self);
  sl ← sin la;
  cd ← cos decl;
  la ← attr (lat self);
  cl ← cos la;
  x ← Py.truediv (- sa - sd * sl) (cd * cl);
  Ret (noon, x).

(** [noon] minus [H/15] in the 'ccw' direction and plus [H/15] otherwise,
    [H/15] computed as [1/15.0 * H] *)
Definition hour_angle_time (direction : option string) (noon H : F64.float)
    : F64.float :=
  if bool_decide (direction = Some "ccw"%string)
  then noon - F64.of_Z 1 / F64.of_Z 15 * H
  else noon + F64.of_Z 1 / F64.of_Z 15 * H.

End HourAngle.

(** ** Calls that omit the format *)

Section Calls.

Context `{P : Platform}.

(** The arguments of one [get_times] call that omits [format]. *)
Record call := {
  c_date : Z * Z * Z;
  c_coords : F64.float * F64.float * option F64.float;
  c_timezone : F64.float;
  c_dst : bool;
}.

Definition get_times_default (c : call) : pyst (gmap string ftime) :=
  get_times (c_date c) (c_coords c) (c_timezone c) (c_dst c) None.

(** The instance after a sequence of such calls, whether they return or
    raise. *)
Definition after_calls (cs : list call) (self : PrayTimes) : PrayTimes :=
  foldl (λ s c, fst (get_times_default c s)) self cs.

Local Open Scope f64_scope.

(** The float times of [compute_times] before [modify_formats] renders
    them (lines 294-308). *)
Definition float_times (self : PrayTimes) : py (gmap string F64.float) :=
  times ← main_iterations self (num_iterations self) seed_times;
  times ← adjust_times self times;
  (* add midnight time *)
  mn ← getitem (settings self) "midnight";
  times ←
    (if pval_eq_str mn "Jafari" then
       ss ← getitem times "sunset";
       fj ← getitem times "fajr";
       d ← time_diff ss fj;
       Ret (<["midnight" := ss + d / F64.of_Z 2]> times)
     else
       ss ← getitem times "sunset";
       sr ← getitem times "sunrise";
       d ← time_diff ss sr;
       Ret (<["midnight" := ss + d / F64.of_Z 2]> times));
  tune_times self times.

(** [times] with every entry rendered by [get_formatted_time] in the
    format [f] *)
Definition rendered (self : PrayTimes) (f : string) (times : gmap string F64.float)
    : py (gmap string ftime) :=
  dict_mapM (λ t, get_formatted_time self t f) times.

End Calls.

(** ** Parameters of the catalog *)

(** the parameter names the engine reads from the settings *)
Definition recognized_params : list string :=
  ["imsak"; "fajr"; "isha"; "maghrib"; "midnight"; "dhuhr"; "asr"; "highLats"]%string.

(** the names a catalog method carries after default merging *)
Definition method_params : list string :=
  ["fajr"; "isha"; "maghrib"; "midnight"]%string.

(** [name in ps and ps[name] is not None] *)
Definition defined_in (ps : gmap string pval) (name : string) : bool :=
  match ps !! name with
  | None | Some PNone => false
  | Some _ => true
  end.

(** Every catalog method defines every recognized parameter. *)
Definition catalog_complete (self : PrayTimes) : Prop :=
  ∀ name cfg, methods self !! name = Some cfg →
  ∀ n, n ∈ recognized_params → defined_in (m_params cfg) n = true.

(** the catalog after the default-merging loop of [__init__] *)
Definition merged_methods : gmap string method_config :=
  merge_defaults (default_params PrayTimes_class) <$> methods PrayTimes_class.

Definition method_ok (cfg : method_config) : bool :=
  forallb (defined_in (m_params cfg)) method_params
  && forallb (defined_in (setitems (m_params cfg) (settings PrayTimes_class)))
       recognized_params.

(** the entry of 'MWL' after default merging *)
Definition MWL_merged : method_config :=
  mk_method "Muslim World League"
    [("fajr", PInt 18); ("isha", PInt 17);
     ("maghrib", PStr "0 min"); ("midnight", PStr "Standard")]%string.

(** ** Numerals *)

(** the leading run of characters of [0-9.+-] *)
Definition token (s : string) : string :=
  re_split_head (λ c, negb (numeric_char c)) s.

Fixpoint all_digits (s : string) : bool :=
  match s with
  | EmptyString => true
  | String c s' => is_digit c && all_digits s'
  end.

Fixpoint all_numeric (s : string) : bool :=
  match s with
  | EmptyString => true
  | String c s' => numeric_char c && all_numeric s'
  end.

(** the integer a digit string denotes, after the digits already in [acc] *)
Fixpoint digits_val (s : string) (acc : Z) : Z :=
  match s with
  | EmptyString => acc
  | String c s' => digits_val s' (10 * acc + (Z.of_N (N_of_ascii c) - 48))
  end.

(** the float nearest to the decimal with the given digits, [scale] of
    them after the point *)
Definition decimal (neg : bool) (digits : string) (scale : nat) : F64.float :=
  let n := digits_val digits 0 in
  if n =? 0 then S754_zero neg else F64.dec (if neg then - n else n) scale.

Inductive sign := NoSign | Plus | Minus.

Definition sign_str (sg : sign) : string :=
  match sg with NoSign => "" | Plus => "+" | Minus => "-" end.

Definition sign_neg (sg : sign) : bool :=
  match sg with Minus => true | _ => false end.

(** A decimal numeral and its value: an optional sign, then digits with
    at most one point and at least one digit. *)
Inductive numeral : string → F64.float → Prop :=
  | numeral_int sg ip :
      all_digits ip = true → ip ≠ ""%string →
      numeral (sign_str sg +:+ ip) (decimal (sign_neg sg) ip 0)
  | numeral_point sg ip fp :
      all_digits ip = true → all_digits fp = true → (ip +:+ fp)%string ≠ ""%string →
      numeral (sign_str sg +:+ ip +:+ "." +:+ fp)
              (decimal (sign_neg sg) (ip +:+ fp) (String.length fp)).

(** the text does not start with a character satisfying [p] *)
Definition not_starting (p : ascii → bool) (s : string) : Prop :=
  match s with
  | EmptyString => True
  | String c _ => p c = false
  end.

(** [float_of_str] after the sign has been read *)
Definition float_of_body (neg : bool) (body : string) : py F64.float :=
  let '(ip, ni, rest) := read_digits body 0 in
  let '(n, nf, rest') :=
    match rest with
    | String c r => if Ascii.eqb c "." then read_digits r ip else (ip, O, rest)
    | EmptyString => (ip, O, rest)
    end in
  match rest' with
  | EmptyString =>
      if (ni + nf =? 0)%nat then Raise ValueError
      else if (n =? 0) then Ret (S754_zero neg)
      else Ret (F64.dec (if neg then - n else n) nf)
  | _ => Raise ValueError
  end.

Definition sign_char (c : ascii) : bool := Ascii.eqb c "-" || Ascii.eqb c "+".

(** ** Construction and results *)

(** the method [__init__] selects *)
Definition chosen_method (self : PrayTimes) (method : string) : string :=
  if bool_decide (is_Some (methods self !! method)) then method else "ISNA"%string.

(** the eight times the main iterations compute, and the nine of a result *)
Definition eight_names : gset string :=
  list_to_set ["imsak"; "fajr"; "sunrise"; "dhuhr"; "asr"; "sunset";
               "maghrib"; "isha"]%string.

Definition nine_names : gset string := {["midnight"%string]} ∪ eight_names.

(** ** Fixtures *)

Definition with_num_iterations (self : PrayTimes) (n : nat) : PrayTimes :=
  {| time_names := time_names self; methods := methods self;
     default_params := default_params self; calc_method := calc_method self;
     settings := settings self; time_format := time_format self;
     time_suffixes := time_suffixes self; invalid_time := invalid_time self;
     num_iterations := n; offset := offset self;
     lat := lat self; lng := lng self; elv := elv self;
     timeZone := timeZone self; jDate := jDate self |}.

(** The ISNA engine placed at (43, -80), time zone -5, with
    [num_iterations] set to 0: its times are the seeds, so that the
    stages after the main iterations run without the math library. *)
Definition seeded : PrayTimes :=
  with_num_iterations
    (with_jDate
       (with_timeZone (with_coords isna (F64.of_Z 43) (F64.of_Z (-80)) (F64.of_Z 0))
          (F64.of_Z (-5)))
       (F64.of_Z 2455602))
    0.

Definition seeded_out : gmap string ftime :=
  returned ∅ (compute_times (P := RefPlatform.platform) seeded).

(** the seeds without a sunrise, and what the high-latitude adjustment
    makes of them *)
Definition seeds_no_sunrise : gmap string F64.float :=
  <["sunrise"%string := F64.nan]> seed_times.

Definition seeds_adjusted : gmap string F64.float :=
  returned ∅ (adjust_high_lats (P := RefPlatform.platform) seeded seeds_no_sunrise).

(** [mid_day] and the argument of [arccos] for the sunrise of that engine
    on the reference platform, and for the polar night *)
Definition seeded_arg : F64.float * F64.float :=
  returned (F64.nan, F64.nan)
    (hour_angle_arg (P := RefPlatform.platform) seeded rise_angle rise_seed).

Definition polar_arg : F64.float * F64.float :=
  returned (F64.nan, F64.nan)
    (hour_angle_arg (P := RefPlatform.platform) polar rise_angle rise_seed).

(** The call of the docstring: [getTimes((2011, 2, 9), (43, -80), -5)]. *)
Definition example_date : Z * Z * Z := (2011, 2, 9).
Definition example_coords : F64.float * F64.float * option F64.float :=
  (F64.of_Z 43, F64.of_Z (-80), None).
Definition example_zone : F64.float := F64.of_Z (-5).

(** the ISNA engine after that call with [format='12h'] on the reference
    platform *)
Definition after_12h : PrayTimes :=
  fst (get_times (P := RefPlatform.platform) example_date example_coords example_zone
         false (Some "12h"%string) isna).

(** what the same call then returns when it omits the format *)
Definition out_12h : gmap string ftime :=
  returned ∅
    (snd (get_times (P := RefPlatform.platform) example_date example_coords example_zone
            false None (after_calls (P := RefPlatform.platform) [] after_12h))).

(** and what it returns on a fresh engine *)
Definition out_fresh : gmap string ftime :=
  returned ∅
    (snd (get_times (P := RefPlatform.platform) example_date example_coords example_zone
            false None isna)).

(** the most digits [str] prints of an int *)
Definition int_max_str_digits : nat := 4300.

(** ** Julian days *)

(** The Julian day number of a Gregorian date by the integer formula of
    Fliegel and Van Flandern (divisions truncate). *)
Definition jdn (y m d : Z) : Z :=
  let a := ((m - 14) ÷ 12)%Z in
  ((1461 * (y + 4800 + a)) ÷ 4 + (367 * (m - 2 - 12 * a)) ÷ 12
   - (3 * ((y + 4900 + a) ÷ 100)) ÷ 4 + d - 32075)%Z.

(** the Julian date at 0h of that day, as [julian] forms it: the float of
    the day number plus 1524, less 1524.5 *)
Definition julian_ref (y m d : Z) : F64.float :=
  F64.sub (F64.of_Z (jdn y m d + 1524)) (F64.dec 15245 1).

(** [julian] before the day is added: the integer
    [floor(365.25 (year + 4716)) + floor(30.6001 (month + 1)) + B] *)
Definition julian_base (year month : Z) : py Z :=
  let '(year, month) :=
    if (month <=? 2)%Z then (year - 1, month + 12)%Z else (year, month) in
  y100 ← int_truediv year 100;
  A ← Py.floor y100;
  a4 ← int_truediv A 4;
  fa4 ← Py.floor a4;
  let B := (2 - A + fa4)%Z in
  y ← Py.float_of_int (year + 4716);
  t1 ← Py.floor (F64.mul (F64.dec 36525 2) y);
  m ← Py.float_of_int (month + 1);
  t2 ← Py.floor (F64.mul (F64.dec 306001 4) m);
  Ret (t1 + t2 + B).

#[global] Instance spec_float_eq_dec : EqDecision spec_float.
Proof. solve_decision. Defined.

#[global] Instance py_eq_dec {A} `{EqDecision A} : EqDecision (py A).
Proof. solve_decision. Defined.

Definition julian_base_agrees (y m : Z) : Prop :=
  julian_base y m = Ret (jdn y m 0 + 1524) ∧ 0 < jdn y m 0 + 1524 < 2 ^ 52.

Definition julian_base_table (y0 : Z) (years : nat) : Prop :=
  Forall (λ y, Forall (λ m, julian_base_agrees y m) (seqZ 1 12))
         (seqZ y0 (Z.of_nat years)).

(** ** Whole angles and hours *)

Definition fix_agrees (z : Z) : Prop :=
  fixangle (F64.of_Z z) = Ret (F64.of_Z (z `mod` 360)) ∧
  fixhour (F64.of_Z z) = Ret (F64.of_Z (z `mod` 24)).


(** * Properties *)

(** ** Outcomes and dictionaries *)

Lemma bind_Ret {A B} (m : py A) (f : A → py B) (b : B) :
  m ≫= f = Ret b → ∃ a, m = Ret a ∧ f a = Ret b.
Proof. destruct m as [a|e]; [by exists a | done]. Qed.

Lemma returned_Ret {A} (d : A) (r : py A) :
  (if r is Ret _ then true else false) = true → r = Ret (returned d r).
Proof. by destruct r. Qed.

Lemma getitem_Ret {V} (d : gmap string V) k v :
  getitem d k = Ret v ↔ d !! k = Some v.
Proof. unfold getitem. destruct (d !! k); split; congruence. Qed.

Lemma setitems_union {V} (upd d : gmap string V) : setitems upd d = upd ∪ d.
Proof.
  unfold setitems.
  apply (map_fold_weak_ind (λ r m, r = m ∪ d)).
  - by rewrite (left_id_L ∅ (∪)).
  - intros i x m r _ ->. by rewrite insert_union_l.
Qed.

(** A successful [dict_mapM] has transformed every entry and added none. *)
Lemma dict_mapM_Ret {A B} (f : A → py B) (d : gmap string A) out :
  dict_mapM f d = Ret out →
  ∀ k, match d !! k with
       | Some v => ∃ b, f v = Ret b ∧ out !! k = Some b
       | None => out !! k = None
       end.
Proof.
  unfold dict_mapM. revert out.
  apply (map_fold_weak_ind (λ r m, ∀ out, r = Ret out →
    ∀ k, match m !! k with
         | Some v => ∃ b, f v = Ret b ∧ out !! k = Some b
         | None => out !! k = None
         end)).
  - intros out [= <-] k. by rewrite !lookup_empty.
  - intros i x m r Hi IH out Hout k.
    apply bind_Ret in Hout as (m' & -> & Hout).
    apply bind_Ret in Hout as (b & Hb & [= <-]).
    specialize (IH m' eq_refl k).
    destruct (decide (i = k)) as [-> | Hne].
    + rewrite !lookup_insert_eq. eauto.
    + by rewrite !lookup_insert_ne.
Qed.

(** ** NaN *)

Lemma add_nan_l x : F64.add F64.nan x = F64.nan.
Proof. reflexivity. Qed.

Lemma add_nan_r x : F64.add x F64.nan = F64.nan.
Proof. by destruct x. Qed.

Lemma ltb_not_nan_l x y : F64.ltb x y = true → F64.is_nan x = false.
Proof. by destruct x. Qed.

Lemma ltb_not_nan_r x y : F64.ltb x y = true → F64.is_nan y = false.
Proof. by destruct x, y. Qed.

(** ** Selecting a method and tuning *)

Lemma set_method_unregistered self method :
  methods self !! method = None →
  set_method method self = (self, Ret tt).
Proof.
  intros H. unfold set_method, mbind, pyst_bind, get_self.
  rewrite bool_decide_eq_false_2; [done |].
  rewrite H. by intros [? ?].
Qed.

Lemma set_method_registered self method :
  is_Some (methods self !! method) →
  set_method method self = (self, Raise AttributeError).
Proof.
  intros H. unfold set_method, mbind, pyst_bind, get_self.
  rewrite bool_decide_eq_true_2; [| done].
  destruct H as [cfg H]. unfold lift, getitem. by rewrite H.
Qed.

(** C1: selecting the registered method 'MWL' on a fresh ISNA engine does
    not select it: the call raises AttributeError at
    [self.methods[method].params] and leaves the method and the settings
    as they were. *)
Theorem set_method_MWL_raises :
  is_Some (methods isna !! "MWL"%string) ∧
  set_method "MWL" isna = (isna, Raise AttributeError) ∧
  get_method (fst (set_method "MWL" isna)) = "ISNA"%string.
Proof.
  assert (H : is_Some (methods isna !! "MWL"%string)) by (vm_compute; eauto).
  split; [done |]. rewrite (set_method_registered _ _ H). split; [done |].
  reflexivity.
Qed.

(** C2: [tune] never updates the offsets: whatever the offsets passed
    and whatever the state, the lookup of [self.offsets] raises
    AttributeError and the state is unchanged. *)
Theorem tune_raises (self : PrayTimes) (timeOffsets : gmap string F64.float) :
  tune timeOffsets self = (self, Raise AttributeError).
Proof.
  unfold tune, mbind, pyst_bind, get_self, lift, getattr.
  replace (String.eqb "offsets" "settings") with false by reflexivity.
  replace (String.eqb "offsets" "offset") with false by reflexivity.
  replace (bool_decide ("offsets"%string ∈ class_attrs)) with false
    by (vm_compute; reflexivity).
  reflexivity.
Qed.

(** ** Normalising angles and hours *)

Lemma fix_nan (a mode : F64.float) :
  F64.is_nan a = true → fix_ a mode = Ret a.
Proof. intros H. unfold fix_, Py.isnan. by rewrite H. Qed.

(** C9: at the finite input -1e-20 the normalised angle is 360.0 and
    the normalised hour is 24.0, outside [0, 360) and [0, 24): the sum
    [a + mode] rounds to [mode].  Normalising again gives 0.0, so the
    functions are not idempotent there.  The same rounding makes the
    difference of two nearly equal times 24.0, and makes the time
    -0.008333333333333335, half a minute before midnight, print as
    "24:00". *)
Theorem fix_tiny_negative :
  F64.is_finite tiny_negative = true ∧
  fixangle tiny_negative = Ret (F64.of_Z 360) ∧
  F64.ltb (F64.of_Z 360) (F64.of_Z 360) = false ∧
  fixangle (F64.of_Z 360) = Ret (F64.of_Z 0) ∧
  fixhour tiny_negative = Ret (F64.of_Z 24) ∧
  F64.ltb (F64.of_Z 24) (F64.of_Z 24) = false ∧
  fixhour (F64.of_Z 24) = Ret (F64.of_Z 0) ∧
  time_diff (F64.add (F64.dec 1 1) (F64.dec 2 1)) (F64.dec 3 1) = Ret (F64.of_Z 24) ∧
  get_formatted_time isna (F64.dec (-8333333333333335) 18) "24h" = Ret (FStr "24:00").
Proof. repeat apply conj; vm_compute; reflexivity. Qed.

(** ** Inverse trigonometric helpers *)

Section Trig.

Context `{P : Platform}.

Lemma outside_unit_not_nan x : outside_unit x → F64.is_nan x = false.
Proof. intros [H | H]; [by eapply ltb_not_nan_r | by eapply ltb_not_nan_l]. Qed.

Lemma math_acos_edom x : outside_unit x → Py.math_1 libm_acos x = Raise ValueError.
Proof.
  intros H. unfold Py.math_1.
  rewrite (libm_acos_edom x H), (outside_unit_not_nan x H). reflexivity.
Qed.

Lemma math_asin_edom x : outside_unit x → Py.math_1 libm_asin x = Raise ValueError.
Proof.
  intros H. unfold Py.math_1.
  rewrite (libm_asin_edom x H), (outside_unit_not_nan x H). reflexivity.
Qed.

Lemma arccos_arcsin_raise_aux (x : F64.float) :
  outside_unit x →
  arccos x = Raise ValueError ∧ arcsin x = Raise ValueError.
Proof.
  intros H. unfold arccos, arcsin.
  by rewrite (math_acos_edom x H), (math_asin_edom x H).
Qed.

(** C6 (amended): for every argument outside [-1, 1] the helpers
    [arccos] and [arcsin] raise ValueError; they do not return NaN. *)
Theorem arccos_arcsin_raise (x : F64.float) :
  outside_unit x →
  arccos x = Raise ValueError ∧ arcsin x = Raise ValueError.
Proof. exact (arccos_arcsin_raise_aux x). Qed.

(** Whatever [math_1] raises is a ValueError. *)
Lemma math_1_raises func x e : Py.math_1 func x = Raise e → e = ValueError.
Proof.
  unfold Py.math_1.
  destruct (_ && _); [congruence |]. destruct (_ && _); congruence.
Qed.

Lemma arccos_raises x e : arccos x = Raise e → e = ValueError.
Proof.
  unfold arccos. destruct (Py.math_1 libm_acos x) eqn:E; [done |].
  intros [= <-]. by eapply math_1_raises.
Qed.

End Trig.

(** The argument 2 is outside [-1, 1], and on the reference platform
    both helpers raise there instead of returning NaN. *)
Lemma arccos_arcsin_2_raise :
  outside_unit (F64.of_Z 2) ∧
  arccos (P := RefPlatform.platform) (F64.of_Z 2) ≠ Ret F64.nan ∧
  arcsin (P := RefPlatform.platform) (F64.of_Z 2) ≠ Ret F64.nan.
Proof. split; [by left |]. split; vm_compute; discriminate. Qed.

Lemma arccos_arcsin_raise_witness :
  outside_unit (F64.of_Z 2) ∧
  arccos (P := RefPlatform.platform) (F64.of_Z 2) = Raise ValueError ∧
  arcsin (P := RefPlatform.platform) (F64.of_Z 2) = Raise ValueError.
Proof.
  assert (H : outside_unit (F64.of_Z 2)) by (left; reflexivity).
  split; [exact H |].
  exact (arccos_arcsin_raise (P := RefPlatform.platform) (F64.of_Z 2) H).
Defined.

(** ** The time format is instance state *)

Section Format.

Context `{P : Platform}.

Lemma with_time_format_id self : with_time_format self (time_format self) = self.
Proof. by destruct self. Qed.

Lemma get_times_time_format date coords timezone dst format self :
  time_format (fst (get_times date coords timezone dst format self))
  = default (time_format self) format.
Proof.
  destruct coords as [[c0 c1] c2], date as [[y m] d].
  unfold get_times, mbind, pyst_bind, modify, lift, get_self. simpl.
  destruct (julian y m d); simpl; by destruct format.
Qed.

Lemma get_times_stored_format date coords timezone dst self :
  get_times date coords timezone dst None self
  = get_times date coords timezone dst (Some (time_format self)) self.
Proof.
  destruct coords as [[c0 c1] c2], date as [[y m] d].
  unfold get_times, mbind, pyst_bind, modify, lift, get_self. simpl.
  by destruct self.
Qed.

Lemma after_calls_time_format cs self :
  time_format (after_calls cs self) = time_format self.
Proof.
  revert self. induction cs as [| c cs IH]; intros self; [done |].
  simpl. rewrite IH. unfold get_times_default.
  by rewrite get_times_time_format.
Qed.

Lemma compute_times_rendered self :
  compute_times self
  = times ← float_times self; rendered self (time_format self) times.
Proof.
  unfold compute_times, finish_times, float_times, rendered, modify_formats.
  destruct (main_iterations _ _ _) as [t0 |]; [| done]; cbn [mbind py_bind].
  destruct (adjust_times _ _) as [t1 |]; [| done]; cbn [mbind py_bind].
  destruct (getitem (settings self) "midnight") as [mn |]; [| done];
    cbn [mbind py_bind].
  match goal with
  | |- (?m ≫= _) = _ => destruct m as [t2 |]; [| done]; cbn [mbind py_bind]
  end.
  by destruct (tune_times _ _).
Qed.

(** A [get_times] call that returns has returned what [compute_times]
    gives on the instance it leaves. *)
Lemma get_times_returns date coords timezone dst format self out :
  snd (get_times date coords timezone dst format self) = Ret out →
  compute_times (fst (get_times date coords timezone dst format self)) = Ret out.
Proof.
  destruct coords as [[c0 c1] c2], date as [[y m] d].
  unfold get_times, mbind, pyst_bind, modify, lift, get_self. simpl.
  destruct (julian y m d); simpl; [done | discriminate].
Qed.

(** C10: a [get_times] call with a format [f] stores [f] on the instance,
    whether the call returns or raises.  After any number of later calls
    that omit the format, a call that omits it behaves as the same call
    with [f] passed, [f] is still the stored format afterwards, and what
    the call returns is rendered in [f]: every entry of the result is
    [get_formatted_time] of the corresponding float time in the format
    [f], and there is no other entry. *)
Theorem get_times_format_persists date coords timezone dst (f : string) self
    (later : list call) date' coords' timezone' dst' :
  let self1 := fst (get_times date coords timezone dst (Some f) self) in
  let self2 := after_calls later self1 in
  let self3 := fst (get_times date' coords' timezone' dst' None self2) in
  time_format self1 = f ∧
  get_times date' coords' timezone' dst' None self2
    = get_times date' coords' timezone' dst' (Some f) self2 ∧
  time_format self3 = f ∧
  ∀ out, snd (get_times date' coords' timezone' dst' None self2) = Ret out →
    ∃ times,
      float_times self3 = Ret times ∧
      rendered self3 f times = Ret out ∧
      ∀ name, match times !! name with
              | Some t => ∃ v, get_formatted_time self3 t f = Ret v
                               ∧ out !! name = Some v
              | None => out !! name = None
              end.
Proof.
  intros self1 self2 self3.
  assert (H1 : time_format self1 = f)
    by (unfold self1; by rewrite get_times_time_format).
  assert (H2 : time_format self2 = f)
    by (unfold self2; by rewrite after_calls_time_format).
  assert (H3 : time_format self3 = f)
    by (unfold self3; by rewrite get_times_time_format, H2).
  split; [done |]. split; [by rewrite get_times_stored_format, H2 |].
  split; [done |].
  intros out Hout. apply get_times_returns in Hout. fold self3 in Hout.
  rewrite compute_times_rendered, H3 in Hout.
  apply bind_Ret in Hout as (times & Hf & Hr).
  exists times. split; [done |]. split; [done |].
  exact (dict_mapM_Ret _ _ _ Hr).
Qed.

End Format.

(** ** Settings given in minutes *)

Section Minutes.

Context `{P : Platform}.

Local Open Scope f64_scope.

(** C8: the stage of [adjust_times] that applies the minute settings.
    Given the four settings and the times it reads, with their numeric
    values, it returns: imsak = fajr - minutes/60 when the imsak setting
    is in minutes; maghrib = sunset - minutes/60 when the maghrib setting
    is; isha = the maghrib just computed - minutes/60 when the isha
    setting is; dhuhr + minutes/60 of the dhuhr setting in all cases; and
    every other entry as it was. *)
Theorem adjust_times_minutes_spec (self : PrayTimes) (times : gmap string F64.float)
    (pi pm ps pd : pval) (tf ts tm td ei em es ed : F64.float) :
  settings self !! "imsak"%string = Some pi →
  settings self !! "maghrib"%string = Some pm →
  settings self !! "isha"%string = Some ps →
  settings self !! "dhuhr"%string = Some pd →
  times !! "fajr"%string = Some tf →
  times !! "sunset"%string = Some ts →
  times !! "maghrib"%string = Some tm →
  times !! "dhuhr"%string = Some td →
  (is_min pi = true → eval pi = Ret ei) →
  (is_min pm = true → eval pm = Ret em) →
  (is_min ps = true → eval ps = Ret es) →
  eval pd = Ret ed →
  let maghrib' := if is_min pm then ts - em / F64.of_Z 60 else tm in
  ∃ times',
    adjust_times_minutes self times = Ret times' ∧
    times' !! "imsak"%string
      = (if is_min pi then Some (tf - ei / F64.of_Z 60) else times !! "imsak"%string) ∧
    times' !! "maghrib"%string = Some maghrib' ∧
    times' !! "isha"%string
      = (if is_min ps then Some (maghrib' - es / F64.of_Z 60) else times !! "isha"%string) ∧
    times' !! "dhuhr"%string = Some (td + ed / F64.of_Z 60) ∧
    ∀ k : string,
      k ≠ "imsak"%string → k ≠ "maghrib"%string → k ≠ "isha"%string →
      k ≠ "dhuhr"%string → times' !! k = times !! k.
Proof.
  intros Hpi Hpm Hps Hpd Hf Hs Hm Hd Hei Hem Hes Hed maghrib'.
  unfold adjust_times_minutes, getitem. subst maghrib'.
  rewrite Hpi, Hpm, Hps, Hpd. simpl.
  destruct (is_min pi) eqn:Ei, (is_min pm) eqn:Em, (is_min ps) eqn:Es; simpl;
    rewrite ?Hf, ?(Hei eq_refl); simpl;
    rewrite ?lookup_insert_ne by done; rewrite ?Hs, ?(Hem eq_refl); simpl;
    rewrite ?lookup_insert_eq, ?lookup_insert_ne by done;
    rewrite ?Hm, ?(Hes eq_refl); simpl;
    rewrite ?lookup_insert_ne by done; rewrite ?Hd, ?Hed; simpl;
    (eexists; split; [reflexivity |]);
    repeat split; intros; by simplify_map_eq.
Qed.

End Minutes.

(** ** Solving for the time of a sun angle *)

(** [x + (-y)] is [x - y], bit for bit. *)
Lemma add_opp (x y : F64.float) : F64.add x (F64.opp y) = F64.sub x y.
Proof.
  destruct x as [sx | sx | | sx mx ex], y as [sy | sy | | sy my ey];
    try reflexivity; by destruct sx, sy.
Qed.

Section Solver.

Context `{P : Platform}.

Local Open Scope f64_scope.

(** Whatever the inputs, a ValueError does not leave [sun_angle_time]. *)
Lemma sun_angle_time_no_ValueError self angle time direction :
  sun_angle_time self angle time direction ≠ Raise ValueError.
Proof.
  unfold sun_angle_time, try_except.
  destruct (_ ≫= _) as [r | e]; [done |].
  destruct (decide (e = ValueError)); congruence.
Qed.

(** [sun_angle_time] is its first steps, then [arccos], then the sum,
    under the handler. *)
Lemma sun_angle_time_split self angle time direction :
  sun_angle_time self angle time direction
  = try_except
      ('(noon, x) ← hour_angle_arg self angle time;
       H ← arccos x;
       Ret (hour_angle_time direction noon H))
      ValueError (Ret F64.nan).
Proof.
  unfold sun_angle_time, hour_angle_arg, hour_angle_time. f_equal.
  destruct (attr (jDate self)) as [jd |]; [| done]; cbn [mbind py_bind].
  destruct (sun_position _) as [[decl eqt] |]; [| done]; cbn [mbind py_bind].
  destruct (mid_day _ _) as [noon |]; [| done]; cbn [mbind py_bind].
  destruct (sin angle) as [sa |]; [| done]; cbn [mbind py_bind].
  destruct (sin decl) as [sd |]; [| done]; cbn [mbind py_bind].
  destruct (attr (lat self)) as [la |]; [| done]; cbn [mbind py_bind].
  destruct (sin la) as [sl |]; [| done]; cbn [mbind py_bind].
  destruct (cos decl) as [cd |]; [| done]; cbn [mbind py_bind].
  destruct (cos la) as [cl |]; [| done]; cbn [mbind py_bind].
  destruct (Py.truediv _ _) as [x |]; [| done]; cbn [mbind py_bind].
  destruct (arccos x) as [H |]; [| done]; cbn [mbind py_bind].
  destruct (bool_decide _); [| done]. by rewrite add_opp.
Qed.

(** Where the C library's [acos] gives a number, as C99 requires of it on
    [-1, 1], [arccos] returns that number in degrees. *)
Lemma arccos_in_range x :
  F64.is_finite (libm_acos x) = true → arccos x = Ret (Py.degrees (libm_acos x)).
Proof.
  intros H. unfold arccos, Py.math_1.
  destruct (libm_acos x); try discriminate; reflexivity.
Qed.


(** At an infinite Julian date the first [fixangle] of [sun_position]
    takes [math.floor] of infinity. *)
Lemma sun_position_infinite :
  sun_position (S754_infinity false) = Raise OverflowError.
Proof.
  unfold sun_position.
  assert (fixangle (F64.dec 357529 3
                    + F64.dec 98560028 8 * (S754_infinity false - F64.dec 24515450 1))
          = Raise OverflowError) as -> by (vm_compute; reflexivity).
  reflexivity.
Qed.

Lemma add_infinity jd :
  F64.is_finite jd = true → jd + S754_infinity false = S754_infinity false.
Proof. by destruct jd. Qed.

(** On every platform an infinite time argument makes [sun_angle_time]
    raise OverflowError, which its handler does not catch. *)
Lemma sun_angle_time_infinite self angle direction jd :
  jDate self = Some jd → F64.is_finite jd = true →
  sun_angle_time self angle (S754_infinity false) direction = Raise OverflowError.
Proof.
  intros Hjd Hfin. unfold sun_angle_time. rewrite Hjd. cbn [attr mbind py_bind].
  rewrite (add_infinity jd Hfin), sun_position_infinite. reflexivity.
Qed.

End Solver.


(** On the reference platform [acos] gives a number at every hundredth
    from -1 to 1. *)
Lemma ref_acos_in_range :
  Forall (λ k, F64.is_finite (RefPlatform.acos (F64.dec k 2)) = true)
         (seqZ (-100) 201).
Proof. apply (bool_decide_unpack _). vm_cast_no_check I. Qed.

(** ** Undefined sunrise and sunset *)

(** Inverts a chain of binds that returned. *)
Ltac inv_bind H :=
  repeat (apply bind_Ret in H as (? & ? & H); cbn beta zeta in H).

Section Polar.

Context `{P : Platform}.

Local Open Scope f64_scope.

(** The high-latitude adjustment writes imsak, fajr, isha and maghrib and
    nothing else. *)
Lemma adjust_high_lats_frame self times times' (k : string) :
  adjust_high_lats self times = Ret times' →
  k ≠ "imsak"%string → k ≠ "fajr"%string → k ≠ "isha"%string →
  k ≠ "maghrib"%string →
  times' !! k = times !! k.
Proof.
  intros H N1 N2 N3 N4. unfold adjust_high_lats in H. inv_bind H.
  injection H as <-. by rewrite !lookup_insert_ne.
Qed.

Lemma adjust_times_minutes_frame self times times' (k : string) :
  adjust_times_minutes self times = Ret times' →
  k ≠ "imsak"%string → k ≠ "maghrib"%string → k ≠ "isha"%string →
  k ≠ "dhuhr"%string →
  times' !! k = times !! k.
Proof.
  intros H N1 N2 N3 N4. unfold adjust_times_minutes in H.
  apply bind_Ret in H as (pi & _ & H).
  apply bind_Ret in H as (t1 & H1 & H).
  apply bind_Ret in H as (pm & _ & H).
  apply bind_Ret in H as (t2 & H2 & H).
  apply bind_Ret in H as (ps & _ & H).
  apply bind_Ret in H as (t3 & H3 & H).
  inv_bind H. injection H as <-.
  rewrite lookup_insert_ne by done.
  assert (E3 : t3 !! k = t2 !! k).
  { destruct (is_min ps); [| congruence].
    inv_bind H3. injection H3 as <-. by rewrite lookup_insert_ne. }
  assert (E2 : t2 !! k = t1 !! k).
  { destruct (is_min pm); [| congruence].
    inv_bind H2. injection H2 as <-. by rewrite lookup_insert_ne. }
  assert (E1 : t1 !! k = times !! k).
  { destruct (is_min pi); [| congruence].
    inv_bind H1. injection H1 as <-. by rewrite lookup_insert_ne. }
  congruence.
Qed.

Lemma adjust_times_nan self times times' (k : string) :
  adjust_times self times = Ret times' →
  times !! k = Some F64.nan →
  k = "sunrise"%string ∨ k = "sunset"%string →
  times' !! k = Some F64.nan.
Proof.
  intros H Hk Hks. unfold adjust_times in H.
  apply bind_Ret in H as (tz & _ & H).
  apply bind_Ret in H as (ln & _ & H). cbn beta zeta in H.
  apply bind_Ret in H as (hl & _ & H).
  apply bind_Ret in H as (t1 & H1 & H).
  rewrite (adjust_times_minutes_frame _ _ _ k H) by (destruct Hks; by subst).
  assert (E : t1 !! k = ((λ v, v + (tz - ln / F64.of_Z 15)) <$> times) !! k).
  { destruct (negb _); [| congruence].
    apply (adjust_high_lats_frame _ _ _ k H1); destruct Hks; by subst. }
  rewrite E, lookup_fmap, Hk. reflexivity.
Qed.

Lemma tune_times_nan self times times' (k : string) :
  tune_times self times = Ret times' →
  times !! k = Some F64.nan →
  times' !! k = Some F64.nan.
Proof.
  unfold tune_times. intros H Hk.
  destruct (bool_decide _) eqn:E; [| done].
  apply bool_decide_eq_true_1 in E. injection H as <-.
  rewrite map_lookup_imap, Hk. simpl.
  assert (Hin : k ∈ dom (offset self)) by (apply E, elem_of_dom; eauto).
  apply elem_of_dom in Hin as [o ->]. reflexivity.
Qed.

Lemma get_formatted_time_nan self format :
  get_formatted_time self F64.nan format = Ret (FStr (invalid_time self)).
Proof. reflexivity. Qed.

Lemma finish_times_nan self times out (k : string) :
  finish_times self times = Ret out →
  times !! k = Some F64.nan →
  k = "sunrise"%string ∨ k = "sunset"%string →
  out !! k = Some (FStr (invalid_time self)).
Proof.
  intros H Hk Hks. unfold finish_times in H.
  apply bind_Ret in H as (t1 & H1 & H).
  apply bind_Ret in H as (mn & _ & H).
  apply bind_Ret in H as (t2 & H2 & H).
  apply bind_Ret in H as (t3 & H3 & H).
  pose proof (adjust_times_nan _ _ _ k H1 Hk Hks) as E1.
  assert (E2 : t2 !! k = Some F64.nan).
  { destruct (pval_eq_str mn "Jafari"); inv_bind H2; injection H2 as <-;
      (rewrite lookup_insert_ne; [done | destruct Hks; by subst]). }
  pose proof (tune_times_nan _ _ _ k H3 E2) as E3.
  pose proof (dict_mapM_Ret _ _ _ H k) as Hout.
  rewrite E3 in Hout. destruct Hout as (b & Hb & ->).
  rewrite get_formatted_time_nan in Hb. congruence.
Qed.

(** C3 (amended): when the main iterations leave the sunrise and sunset
    times undefined (NaN), a [compute_times] that returns gives the
    invalid-time sentinel for both, under every high-latitude setting:
    the adjustment rewrites imsak, fajr, isha and maghrib only. *)
Theorem undefined_sunrise_sunset (self : PrayTimes)
    (times : gmap string F64.float) (out : gmap string ftime) :
  main_iterations self (num_iterations self) seed_times = Ret times →
  times !! "sunrise"%string = Some F64.nan →
  times !! "sunset"%string = Some F64.nan →
  compute_times self = Ret out →
  out !! "sunrise"%string = Some (FStr (invalid_time self)) ∧
  out !! "sunset"%string = Some (FStr (invalid_time self)).
Proof.
  intros Hm Hsr Hss H. unfold compute_times in H. rewrite Hm in H.
  change (finish_times self times = Ret out) in H.
  split; eapply finish_times_nan; eauto.
Qed.

End Polar.

(** ** Default merging *)

Lemma set_default_defined ps i x n :
  defined_in ps n = true → defined_in (set_default ps i x) n = true.
Proof.
  unfold set_default, defined_in. intros H.
  destruct (decide (i = n)) as [-> | Hne].
  - destruct (ps !! n) as [[] |] eqn:E; try done; by rewrite E.
  - destruct (ps !! i) as [[] |]; try done; by rewrite lookup_insert_ne.
Qed.

Lemma set_default_new ps i x :
  x ≠ PNone → defined_in (set_default ps i x) i = true.
Proof.
  unfold set_default, defined_in. intros H.
  destruct (ps !! i) as [[] |] eqn:E; rewrite ?lookup_insert_eq, ?E;
    try done; by destruct x.
Qed.

(** Whatever the catalog, merging gives every method each default that is
    not [None], and keeps what the method defined. *)
Lemma merge_defaults_defined defaults cfg :
  (∀ n, defined_in (m_params cfg) n = true →
        defined_in (m_params (merge_defaults defaults cfg)) n = true) ∧
  (∀ n v, defaults !! n = Some v → v ≠ PNone →
        defined_in (m_params (merge_defaults defaults cfg)) n = true).
Proof.
  unfold merge_defaults. simpl.
  apply (map_fold_weak_ind (λ r m,
    (∀ n, defined_in (m_params cfg) n = true → defined_in r n = true) ∧
    (∀ n v, m !! n = Some v → v ≠ PNone → defined_in r n = true))).
  - split; [done |]. intros n v. by rewrite lookup_empty.
  - intros i x m r Hi [IH1 IH2]. split.
    + intros n Hn. by apply set_default_defined, IH1.
    + intros n v Hn Hv. destruct (decide (i = n)) as [-> | Hne].
      * rewrite lookup_insert_eq in Hn. injection Hn as ->.
        by apply set_default_new.
      * rewrite lookup_insert_ne in Hn by done.
        apply set_default_defined. by eapply IH2.
Qed.

Lemma merged_methods_ok : map_Forall (λ _ cfg, method_ok cfg = true) merged_methods.
Proof. apply (bool_decide_unpack _). vm_compute. exact I. Qed.

Lemma merged_methods_ISNA : is_Some (merged_methods !! "ISNA"%string).
Proof. vm_compute. eauto. Qed.

Lemma init_settings (method : string) :
  ∃ cfg, merged_methods !! (if bool_decide (is_Some (merged_methods !! method))
                            then method else "ISNA"%string) = Some cfg ∧
  __init__ method PrayTimes_class
  = (fst (__init__ method PrayTimes_class), Ret tt) ∧
  methods (fst (__init__ method PrayTimes_class)) = merged_methods ∧
  settings (fst (__init__ method PrayTimes_class))
  = setitems (m_params cfg) (settings PrayTimes_class).
Proof.
  assert (∃ cfg, merged_methods !! (if bool_decide (is_Some (merged_methods !! method))
                            then method else "ISNA"%string) = Some cfg) as [cfg Hcfg].
  { case_bool_decide as H; [exact H | exact merged_methods_ISNA]. }
  exists cfg. split; [exact Hcfg |].
  unfold __init__, mbind, pyst_bind, modify, get_self, lift.
  cbn [fst snd with_methods with_calc_method methods calc_method default_params].
  fold merged_methods. unfold getitem. rewrite Hcfg.
  cbn [fst snd with_settings with_offset settings methods]. done.
Qed.

(** C4 (amended): after construction, for whatever method name is
    passed, every method of the catalog has a value other than [None]
    for fajr, isha, maghrib and midnight, and the active settings have
    one for each of the eight recognized names.  The construction
    itself returns. *)
Theorem init_params_defined (method name : string) (cfg : method_config) :
  methods (fst (__init__ method PrayTimes_class)) !! name = Some cfg →
  snd (__init__ method PrayTimes_class) = Ret tt ∧
  (∀ n, n ∈ method_params → defined_in (m_params cfg) n = true) ∧
  (∀ n, n ∈ recognized_params →
        defined_in (settings (fst (__init__ method PrayTimes_class))) n = true).
Proof.
  destruct (init_settings method) as (c & Hc & Hr & Hm & Hs).
  rewrite Hm, Hs. intros Hcfg. split; [by rewrite Hr |].
  pose proof (merged_methods_ok _ _ Hcfg) as H1.
  pose proof (merged_methods_ok _ _ Hc) as H2.
  unfold method_ok in *.
  apply andb_true_iff in H1 as [H1 _], H2 as [_ H2].
  rewrite forallb_forall in H1, H2.
  split; intros n Hn; [apply H1 | apply H2]; by apply list_elem_of_In.
Qed.

(** After [PrayTimes('ISNA')] the catalog is not complete: the method
    'MWL' has no imsak parameter. *)
Lemma catalog_incomplete : ¬ catalog_complete isna.
Proof.
  intros H.
  assert (∃ cfg, methods isna !! "MWL"%string = Some cfg
                 ∧ defined_in (m_params cfg) "imsak" = false) as (cfg & Hcfg & Hn).
  { eexists. split; vm_compute; reflexivity. }
  specialize (H "MWL"%string cfg Hcfg "imsak"%string).
  rewrite Hn in H. apply diff_false_true, H.
  vm_compute. by left.
Qed.

(** ** Reading a number from a setting *)

Lemma token_spec s :
  ∃ rest, s = (token s +:+ rest)%string ∧ all_numeric (token s) = true
          ∧ not_starting numeric_char rest.
Proof.
  unfold token. induction s as [| c s (rest & IH1 & IH2 & IH3)]; simpl.
  - by exists ""%string.
  - destruct (numeric_char c) eqn:E; simpl.
    + exists rest. rewrite E. simpl. split; [exact (f_equal (String c) IH1) | done].
    + by exists (String c s).
Qed.

Lemma app_cons c a b : (String c a +:+ b)%string = String c (a +:+ b).
Proof. reflexivity. Qed.

Lemma app_nil b : ("" +:+ b)%string = b.
Proof. reflexivity. Qed.

Lemma digit_not_sign c : is_digit c = true → Ascii.eqb c "-" = false ∧ Ascii.eqb c "+" = false ∧ Ascii.eqb c "." = false.
Proof.
  intros H. repeat split; apply Ascii.eqb_neq; intros ->; vm_compute in H; discriminate.
Qed.

Lemma digits_val_app a b acc :
  digits_val (a +:+ b) acc = digits_val b (digits_val a acc).
Proof.
  revert acc. induction a as [| c a IH]; intros acc; [done |].
  rewrite app_cons. simpl. apply IH.
Qed.

Lemma all_digits_app a b :
  all_digits a = true → all_digits b = true → all_digits (a +:+ b) = true.
Proof.
  induction a as [| c a IH]; [done |]. rewrite app_cons. simpl.
  intros [-> Ha]%andb_true_iff Hb. simpl. by apply IH.
Qed.

Lemma length_app a b : String.length (a +:+ b) = (String.length a + String.length b)%nat.
Proof. induction a as [| c a IH]; [done |]. rewrite app_cons. simpl. by rewrite IH. Qed.

Lemma app_assoc a b c : ((a +:+ b) +:+ c = a +:+ (b +:+ c))%string.
Proof. induction a as [| x a IH]; [done |]. rewrite !app_cons. by rewrite IH. Qed.

Lemma app_empty_r a : (a +:+ "")%string = a.
Proof. induction a as [| x a IH]; [done |]. rewrite app_cons. by rewrite IH. Qed.

(** [read_digits] on digits followed by something that is not a digit *)
Lemma read_digits_app ds r acc :
  all_digits ds = true → not_starting is_digit r →
  read_digits (ds +:+ r) acc = (digits_val ds acc, String.length ds, r).
Proof.
  revert acc. induction ds as [| c ds IH]; intros acc Hd Hr.
  - rewrite app_nil. destruct r as [| c r]; [done |]. simpl in *. by rewrite Hr.
  - rewrite app_cons. simpl in *. apply andb_true_iff in Hd as [Hc Hd].
    rewrite Hc. by rewrite IH.
Qed.

(** what [read_digits] returns, in general *)
Lemma read_digits_spec s acc n k r :
  read_digits s acc = (n, k, r) →
  ∃ ds, s = (ds +:+ r)%string ∧ all_digits ds = true ∧ String.length ds = k
        ∧ n = digits_val ds acc ∧ not_starting is_digit r.
Proof.
  revert acc n k r. induction s as [| c s IH]; intros acc n k r; simpl.
  - intros [= <- <- <-]. by exists ""%string.
  - destruct (is_digit c) eqn:Hc.
    + destruct (read_digits s _) as [[n' k'] r'] eqn:E.
      intros [= <- <- <-].
      destruct (IH _ _ _ _ E) as (ds & -> & Hd & Hl & Hn & Hr).
      exists (String c ds). rewrite app_cons. simpl. rewrite Hc, Hd, Hl. by rewrite <- Hn.
    + intros [= <- <- <-]. exists ""%string. simpl. by rewrite Hc.
Qed.

Lemma float_of_str_raises s e : float_of_str s = Raise e → e = ValueError.
Proof.
  unfold float_of_str.
  destruct (match s with EmptyString => _ | String _ _ => _ end) as [neg body].
  destruct (read_digits body 0) as [[ip ni] rest].
  destruct (match rest with EmptyString => _ | String _ _ => _ end) as [[n nf] rest'].
  destruct rest'; [| congruence].
  destruct (_ =? _)%nat; [congruence |]. destruct (_ =? _); congruence.
Qed.

Lemma float_of_str_sign sg body :
  not_starting sign_char body →
  float_of_str (sign_str sg +:+ body) = float_of_body (sign_neg sg) body.
Proof.
  intros H. destruct sg; try reflexivity.
  rewrite app_nil. destruct body as [| c body]; [reflexivity |].
  simpl in H. apply orb_false_iff in H as [H1 H2].
  unfold float_of_str. by rewrite H1, H2.
Qed.

(** every text is a sign followed by a body that starts with none *)
Lemma float_of_str_split s :
  ∃ sg body, s = (sign_str sg +:+ body)%string
             ∧ float_of_str s = float_of_body (sign_neg sg) body.
Proof.
  destruct s as [| c r]; [by exists NoSign, ""%string |].
  destruct (Ascii.eqb c "-") eqn:E1.
  { apply Ascii.eqb_eq in E1 as ->. by exists Minus, r. }
  destruct (Ascii.eqb c "+") eqn:E2.
  { apply Ascii.eqb_eq in E2 as ->. by exists Plus, r. }
  exists NoSign, (String c r). split; [done |].
  unfold float_of_str. by rewrite E1, E2.
Qed.

Lemma length_empty s : String.length s = 0%nat → s = ""%string.
Proof. by destruct s. Qed.

Lemma float_of_body_int neg ip :
  all_digits ip = true → ip ≠ ""%string →
  float_of_body neg ip = Ret (decimal neg ip 0).
Proof.
  intros Hd Hne. unfold float_of_body.
  rewrite <- (app_empty_r ip) at 1.
  rewrite (read_digits_app ip "" 0 Hd I).
  rewrite Nat.add_0_r.
  destruct (String.length ip =? 0)%nat eqn:E.
  { apply Nat.eqb_eq, length_empty in E. done. }
  unfold decimal. by destruct (_ =? _).
Qed.

Lemma float_of_body_point neg ip fp :
  all_digits ip = true → all_digits fp = true → (ip +:+ fp)%string ≠ ""%string →
  float_of_body neg (ip +:+ "." +:+ fp)
  = Ret (decimal neg (ip +:+ fp) (String.length fp)).
Proof.
  intros Hi Hf Hne. unfold float_of_body.
  rewrite (read_digits_app ip ("." +:+ fp) 0 Hi) by reflexivity.
  rewrite app_cons, app_nil. replace (Ascii.eqb "." ".") with true by reflexivity.
  rewrite <- (app_empty_r fp) at 1.
  rewrite (read_digits_app fp "" _ Hf I).
  destruct (String.length ip + String.length fp =? 0)%nat eqn:E.
  { apply Nat.eqb_eq in E. rewrite <- length_app in E.
    by apply length_empty in E. }
  unfold decimal. rewrite digits_val_app. by destruct (_ =? _).
Qed.

Lemma digits_not_starting_sign ip r :
  all_digits ip = true → not_starting sign_char r →
  not_starting sign_char (ip +:+ r).
Proof.
  destruct ip as [| c ip]; [done |]. rewrite app_cons. simpl.
  intros [Hc _]%andb_true_iff _. unfold sign_char.
  destruct (digit_not_sign c Hc) as (-> & -> & _). done.
Qed.

(** The parser accepts every numeral, with its value. *)
Lemma float_of_str_sound tok v : numeral tok v → float_of_str tok = Ret v.
Proof.
  intros [sg ip Hi Hne | sg ip fp Hi Hf Hne].
  - rewrite float_of_str_sign by (by apply (digits_not_starting_sign ip "")
      || (rewrite <- (app_empty_r ip); by apply digits_not_starting_sign)).
    by apply float_of_body_int.
  - rewrite float_of_str_sign by (by apply digits_not_starting_sign).
    by apply float_of_body_point.
Qed.

(** The parser accepts numerals only. *)
Lemma float_of_body_complete neg body v :
  float_of_body neg body = Ret v →
  (∃ ip, body = ip ∧ all_digits ip = true ∧ ip ≠ ""%string
         ∧ v = decimal neg ip 0) ∨
  (∃ ip fp, body = (ip +:+ "." +:+ fp)%string ∧ all_digits ip = true
            ∧ all_digits fp = true ∧ (ip +:+ fp)%string ≠ ""%string
            ∧ v = decimal neg (ip +:+ fp) (String.length fp)).
Proof.
  unfold float_of_body.
  destruct (read_digits body 0) as [[ipv ni] rest] eqn:E1.
  destruct (read_digits_spec _ _ _ _ _ E1) as (ip & -> & Hi & Hl & -> & Hr).
  destruct rest as [| c r].
  - rewrite Nat.add_0_r. destruct (ni =? 0)%nat eqn:En; [done |].
    intros Hv. left. exists ip. rewrite app_empty_r.
    repeat split; [done | | ].
    + intros ->. simpl in Hl. subst ni. done.
    + unfold decimal. destruct (_ =? _); congruence.
  - destruct (Ascii.eqb c ".") eqn:Ec.
    + apply Ascii.eqb_eq in Ec as ->.
      destruct (read_digits r _) as [[n nf] rest'] eqn:E2.
      destruct (read_digits_spec _ _ _ _ _ E2) as (fp & -> & Hf & Hlf & -> & _).
      destruct rest' as [| ? ?]; [| done].
      destruct (ni + nf =? 0)%nat eqn:En; [done |].
      intros Hv. right. exists ip, fp. rewrite app_empty_r.
      repeat split; [done | done | | ].
      * intros Hemp. apply (f_equal String.length) in Hemp.
        rewrite length_app, Hl, Hlf in Hemp. simpl in Hemp.
        apply Nat.eqb_neq in En. done.
      * unfold decimal. rewrite digits_val_app, Hlf.
        destruct (_ =? _); congruence.
    + done.
Qed.

Lemma float_of_str_complete tok v : float_of_str tok = Ret v → numeral tok v.
Proof.
  destruct (float_of_str_split tok) as (sg & body & -> & ->).
  intros [(ip & -> & Hi & Hne & ->) | (ip & fp & -> & Hi & Hf & Hne & ->)]%float_of_body_complete.
  - by constructor.
  - by constructor.
Qed.

Section Eval.

Context `{P : Platform}.

(** C5 (amended): on a string, [eval] looks at the leading run of
    characters of [0-9.+-] only.  It returns 0 when that token is empty,
    the value of the token when the token is a decimal numeral, and raises
    ValueError when the token is not empty and not a numeral. *)
Theorem eval_string (s : string) :
  (∃ rest, s = (token s +:+ rest)%string ∧ all_numeric (token s) = true
           ∧ not_starting numeric_char rest) ∧
  (token s = ""%string → eval (PStr s) = Ret (F64.of_Z 0)) ∧
  (∀ v, numeral (token s) v → eval (PStr s) = Ret v) ∧
  (token s ≠ ""%string → (∀ v, ¬ numeral (token s) v) →
   eval (PStr s) = Raise ValueError).
Proof.
  split; [apply token_spec |].
  unfold eval. simpl. fold (token s).
  split; [by intros -> |]. split.
  - intros v Hv. pose proof (float_of_str_sound _ _ Hv) as H.
    destruct (String.eqb (token s) "") eqn:E; [| done].
    apply String.eqb_eq in E. rewrite E in Hv. inversion Hv as [sg ip Hi Hne Heq | sg ip fp Hi Hf Hne Heq].
    + destruct sg, ip; done.
    + destruct sg, ip; done.
  - intros Hne Hnum.
    destruct (String.eqb (token s) "") eqn:E; [by apply String.eqb_eq in E |].
    destruct (float_of_str (token s)) as [v | e] eqn:Ef.
    + by apply float_of_str_complete, Hnum in Ef.
    + by rewrite (float_of_str_raises _ _ Ef).
Qed.

End Eval.

(** The text '-' is its own token and is not empty, yet [eval] does not
    return 0 for it: it raises. *)
Lemma eval_minus_raises :
  token "-" = "-"%string ∧
  eval (P := RefPlatform.platform) (PStr "-") ≠ Ret (F64.of_Z 0) ∧
  eval (P := RefPlatform.platform) (PStr "-") = Raise ValueError ∧
  eval (P := RefPlatform.platform) (PStr "1.2.3 min") = Raise ValueError.
Proof. repeat split; vm_compute; done. Qed.

(** ** Runs on the reference platform *)

(** In the polar night the high-latitude rule is 'NightMiddle', the
    sunrise and sunset equations have no solution, and the formatted
    sunrise and sunset are the sentinel, not a clamped time. *)
Lemma polar_night_sentinel :
  settings polar !! "highLats"%string = Some (PStr "NightMiddle") ∧
  invalid_time polar = "-----"%string ∧
  main_iterations (P := RefPlatform.platform) polar (num_iterations polar) seed_times
    = Ret polar_times ∧
  polar_times !! "sunrise"%string = Some F64.nan ∧
  polar_times !! "sunset"%string = Some F64.nan ∧
  compute_times (P := RefPlatform.platform) polar = Ret polar_out ∧
  polar_out !! "sunrise"%string = Some (FStr "-----") ∧
  polar_out !! "sunset"%string = Some (FStr "-----").
Proof. repeat apply conj; vm_compute; reflexivity. Qed.

Lemma undefined_sunrise_sunset_witness :
  polar_out !! "sunrise"%string = Some (FStr (invalid_time polar)) ∧
  polar_out !! "sunset"%string = Some (FStr (invalid_time polar)).
Proof.
  apply (undefined_sunrise_sunset (P := RefPlatform.platform) polar polar_times polar_out);
    vm_compute; reflexivity.
Defined.


(** After a call with [format='12h'], the call of the docstring without a
    format returns its times on the 12-hour clock: the sunrise that a
    fresh engine prints as 07:26 is 7:26am. *)
Lemma get_times_format_persists_witness :
  let self3 :=
    fst (get_times (P := RefPlatform.platform) example_date example_coords example_zone
           false None (after_calls (P := RefPlatform.platform) [] after_12h)) in
  ∃ times,
    float_times (P := RefPlatform.platform) self3 = Ret times ∧
    rendered self3 "12h" times = Ret out_12h ∧
    out_12h !! "sunrise"%string = Some (FStr "7:26am") ∧
    out_fresh !! "sunrise"%string = Some (FStr "07:26").
Proof.
  pose proof (get_times_format_persists (P := RefPlatform.platform)
                example_date example_coords example_zone false "12h" isna []
                example_date example_coords example_zone false) as H.
  cbv zeta in H. destruct H as (_ & _ & _ & Hr).
  destruct (Hr out_12h) as (times & Hf & Hrend & _);
    [apply returned_Ret; vm_compute; reflexivity |].
  exists times.
  split; [exact Hf |]. split; [exact Hrend |].
  split; vm_compute; reflexivity.
Defined.

Lemma adjust_times_minutes_spec_witness :
  ∃ times',
    adjust_times_minutes (P := RefPlatform.platform) isna seed_times = Ret times' ∧
    times' !! "imsak"%string
      = Some (F64.sub (F64.of_Z 5) (F64.div (F64.of_Z 10) (F64.of_Z 60))) ∧
    times' !! "isha"%string = Some (F64.of_Z 18).
Proof.
  destruct (adjust_times_minutes_spec (P := RefPlatform.platform) isna seed_times
              (PStr "10 min") (PStr "0 min") (PInt 15) (PStr "0 min")
              (F64.of_Z 5) (F64.of_Z 18) (F64.of_Z 18) (F64.of_Z 12)
              (F64.of_Z 10) (F64.of_Z 0) (F64.of_Z 15) (F64.of_Z 0))
    as (times' & H1 & H2 & _ & H3 & _);
    [intros; vm_compute; reflexivity .. | ].
  exists times'. split; [exact H1 |]. split; [exact H2 | exact H3].
Defined.

Lemma init_params_defined_witness :
  snd (__init__ "ISNA" PrayTimes_class) = Ret tt ∧
  (∀ n, n ∈ method_params → defined_in (m_params MWL_merged) n = true) ∧
  (∀ n, n ∈ recognized_params →
        defined_in (settings (fst (__init__ "ISNA" PrayTimes_class))) n = true).
Proof.
  apply (init_params_defined "ISNA" "MWL" MWL_merged). vm_compute. reflexivity.
Defined.

(** * Further properties *)

(** ** Construction *)

(** [name] is given a value by [ps], [None] counting as no value *)
Lemma defined_in_Some ps n :
  defined_in ps n = true ↔ ∃ v, ps !! n = Some v ∧ v ≠ PNone.
Proof.
  unfold defined_in. destruct (ps !! n) as [[] |]; split;
    try done; try (intros (v & [= <-] & Hv); done); eauto.
Qed.

Lemma set_default_lookup ps i x n :
  set_default ps i x !! n
  = if decide (i = n)
    then (if defined_in ps n then ps !! n else Some x)
    else ps !! n.
Proof.
  unfold set_default, defined_in. destruct (decide (i = n)) as [-> | Hne].
  - destruct (ps !! n) as [[] |] eqn:E; by rewrite ?lookup_insert_eq, ?E.
  - destruct (ps !! i) as [[] |]; by rewrite ?lookup_insert_ne.
Qed.

Lemma merge_defaults_lookup_aux (defaults : gmap string pval) (config : method_config)
    (n : string) :
  m_params (merge_defaults defaults config) !! n
  = if defined_in (m_params config) n then m_params config !! n
    else match defaults !! n with
         | Some d => Some d
         | None => m_params config !! n
         end.
Proof.
  unfold merge_defaults. simpl.
  apply (map_fold_weak_ind (λ r m,
    r !! n = if defined_in (m_params config) n then m_params config !! n
             else match m !! n with
                  | Some d => Some d
                  | None => m_params config !! n
                  end)).
  - rewrite lookup_empty. by destruct (defined_in _ _).
  - intros i x m r Hi IH. rewrite set_default_lookup.
    destruct (decide (i = n)) as [-> | Hne].
    + rewrite lookup_insert_eq. rewrite Hi in IH.
      unfold defined_in at 1. rewrite IH.
      destruct (defined_in (m_params config) n) eqn:E; [| ].
      * unfold defined_in in E. by destruct (m_params config !! n) as [[] |].
      * unfold defined_in in E. by destruct (m_params config !! n) as [[] |].
    + by rewrite lookup_insert_ne.
Qed.

(** X1: default merging, name by name: a parameter the method defines
    (with a value other than [None]) keeps its value; otherwise the
    default is taken when there is one; a name with neither stays as it
    was.  The method's display name is kept. *)
Theorem merge_defaults_lookup (defaults : gmap string pval) (config : method_config)
    (n : string) :
  m_name (merge_defaults defaults config) = m_name config ∧
  m_params (merge_defaults defaults config) !! n
  = if defined_in (m_params config) n then m_params config !! n
    else match defaults !! n with
         | Some d => Some d
         | None => m_params config !! n
         end.
Proof. split; [done | apply merge_defaults_lookup_aux]. Qed.

(** X2: construction on any state.  The selected method is the one asked
    for when it is registered and 'ISNA' otherwise.  When the selected
    method is registered the call returns, the catalog keeps its names,
    and each setting takes the method's merged parameter when the method
    has that name, and keeps its earlier value otherwise; when it is not
    (an unknown name and no 'ISNA'), the call raises KeyError and the
    settings are untouched. *)
Theorem init_outcome (self : PrayTimes) (method : string) :
  let self' := fst (__init__ method self) in
  let chosen := chosen_method self method in
  calc_method self' = chosen ∧
  dom (methods self') = dom (methods self) ∧
  match methods self !! chosen with
  | Some config =>
      snd (__init__ method self) = Ret tt ∧
      ∀ n, settings self' !! n
           = match m_params (merge_defaults (default_params self) config) !! n with
             | Some v => Some v
             | None => settings self !! n
             end
  | None =>
      snd (__init__ method self) = Raise KeyError ∧
      settings self' = settings self
  end.
Proof.
  intros self' chosen. subst self'.
  unfold __init__, mbind, pyst_bind, modify, get_self, lift.
  cbn [fst snd with_methods with_calc_method methods calc_method default_params].
  assert (Hc : (if bool_decide (is_Some ((merge_defaults (default_params self)
                   <$> methods self) !! method)) then method else "ISNA"%string)
               = chosen).
  { unfold chosen, chosen_method. rewrite lookup_fmap.
    by rewrite (bool_decide_ext _ _ (fmap_is_Some _ _)). }
  rewrite Hc. unfold getitem. rewrite lookup_fmap.
  destruct (methods self !! chosen) as [config |]; simpl.
  - split; [done |]. split; [apply dom_fmap_L |]. split; [done |].
    intros n. rewrite setitems_union, lookup_union.
    destruct (_ !! n), (settings self !! n); done.
  - split; [done |]. split; [apply dom_fmap_L | done].
Qed.

(** X3: a construction that returns gives every time name the offset 0
    and leaves the offsets of other names as they were. *)
Theorem init_offsets (self : PrayTimes) (method : string) (n : string) :
  snd (__init__ method self) = Ret tt →
  offset (fst (__init__ method self)) !! n
  = match time_names self !! n with
    | Some _ => Some F64.zero
    | None => offset self !! n
    end.
Proof.
  unfold __init__, mbind, pyst_bind, modify, get_self, lift.
  cbn [fst snd with_methods with_calc_method methods calc_method default_params].
  destruct (getitem _ _) as [config | e]; [| done]. intros _.
  cbn [fst snd with_settings with_offset offset time_names].
  apply (map_fold_weak_ind (λ r m,
    r !! n = match m !! n with
             | Some _ => Some F64.zero
             | None => offset self !! n
             end)).
  - by rewrite lookup_empty.
  - intros i x m r Hi IH. destruct (decide (i = n)) as [-> | Hne].
    + by rewrite !lookup_insert_eq.
    + by rewrite !lookup_insert_ne.
Qed.

Lemma init_offsets_witness :
  offset (fst (__init__ "ISNA" PrayTimes_class)) !! "fajr"%string
  = match time_names PrayTimes_class !! "fajr"%string with
    | Some _ => Some F64.zero
    | None => offset PrayTimes_class !! "fajr"%string
    end.
Proof. apply (init_offsets PrayTimes_class "ISNA" "fajr"). vm_compute. reflexivity. Defined.

(** ** Adjusting the settings *)

(** X4: [adjust] with a dictionary returns, overwrites exactly the named
    settings and changes no other attribute; two calls in a row act as
    one call with the second dictionary taking precedence. *)
Theorem adjust_settings (d d' : gmap string pval) (self : PrayTimes) :
  let self1 := fst (adjust (ODict d) self) in
  snd (adjust (ODict d) self) = Ret tt ∧
  (∀ n, settings self1 !! n
        = match d !! n with Some v => Some v | None => settings self !! n end) ∧
  with_settings self1 (settings self) = self ∧
  adjust (ODict d') self1 = adjust (ODict (d' ∪ d)) self.
Proof.
  unfold adjust, modify. cbn [fst snd with_settings settings].
  split; [done |]. split; [| split].
  - intros n. rewrite lookup_union. destruct (d !! n), (settings self !! n); done.
  - by destruct self.
  - by rewrite (assoc_L (∪)).
Qed.

(** ** Settings as text *)

Lemma prefix_spec sub s :
  String.prefix sub s = true ↔ ∃ b, s = (sub +:+ b)%string.
Proof.
  revert s. induction sub as [| c sub IH]; intros s; simpl.
  - split; [intros _; exists s; reflexivity | intros _; by destruct s].
  - destruct s as [| c' s]; [split; [done | intros (b & Hb); discriminate Hb] |].
    simpl. destruct (ascii_dec c c') as [-> | Hne].
    + rewrite IH. split; intros (b & Hb); exists b.
      * rewrite app_cons. by f_equal.
      * rewrite app_cons in Hb. by injection Hb.
    + split; [done |]. intros (b & Hb). rewrite app_cons in Hb. congruence.
Qed.

Lemma str_contains_spec sub s :
  str_contains sub s = true ↔ ∃ a b, s = (a +:+ sub +:+ b)%string.
Proof.
  induction s as [| c s IH].
  - change (str_contains sub "") with (String.prefix sub "" || false).
    rewrite orb_false_r, prefix_spec. split.
    + intros (b & Hb). exists ""%string, b. exact Hb.
    + intros (a & b & Hab). destruct a as [| ? ?]; [exists b; exact Hab | discriminate Hab].
  - change (str_contains sub (String c s))
      with (String.prefix sub (String c s) || str_contains sub s).
    rewrite orb_true_iff, prefix_spec, IH. split.
    + intros [(b & Hb) | (a & b & Hab)]; [exists ""%string, b; exact Hb |].
      exists (String c a), b. rewrite app_cons. by f_equal.
    + intros (a & b & Hab). destruct a as [| c' a].
      * left. exists b. exact Hab.
      * right. exists a, b. rewrite app_cons in Hab. by injection Hab.
Qed.

(** X5: [is_min] holds of exactly the strings that contain 'min'
    somewhere; numbers and [None] are never minute settings. *)
Theorem is_min_spec (arg : pval) :
  is_min arg = true ↔ ∃ a b, arg = PStr (a +:+ "min" +:+ b).
Proof.
  destruct arg as [| z | x | s]; simpl;
    try (split; [done | intros (a & b & Hab); discriminate Hab]).
  rewrite str_contains_spec. split; intros (a & b & Hab); exists a, b; congruence.
Qed.

Lemma all_digits_numeric ds : all_digits ds = true → all_numeric ds = true.
Proof.
  induction ds as [| c ds IH]; simpl; [done |].
  intros [Hc Hd]%andb_true_iff. rewrite IH by done.
  unfold numeric_char. unfold is_digit in Hc. by rewrite Hc.
Qed.

(** the token of a numeric run followed by something else is the run *)
Lemma token_app tok rest :
  all_numeric tok = true → not_starting numeric_char rest →
  token (tok +:+ rest) = tok.
Proof.
  unfold token. induction tok as [| c tok IH]; intros Ht Hr.
  - rewrite app_nil. destruct rest as [| c rest]; [done |].
    simpl in *. by rewrite Hr.
  - rewrite app_cons. simpl in *. apply andb_true_iff in Ht as [-> Ht].
    simpl. by rewrite IH.
Qed.

Section Texts.

Context `{P : Platform}.

Lemma eval_token s :
  eval (PStr s) = if String.eqb (token s) "" then Ret (F64.of_Z 0)
                  else float_of_str (token s).
Proof. reflexivity. Qed.

(** X6: a setting written as digits followed by ' min' is a minute
    setting, and its value is the number the digits denote. *)
Theorem minutes_setting (ds : string) :
  all_digits ds = true → ds ≠ ""%string →
  is_min (PStr (ds +:+ " min")) = true ∧
  eval (PStr (ds +:+ " min")) = Ret (decimal false ds 0).
Proof.
  intros Hd Hne. split.
  - apply is_min_spec. by exists (ds +:+ " ")%string, ""%string; rewrite app_assoc.
  - rewrite eval_token, token_app by (by apply all_digits_numeric || done).
    destruct (String.eqb ds "") eqn:E; [by apply String.eqb_eq in E |].
    apply float_of_str_sound. by apply (numeral_int NoSign).
Qed.

End Texts.

Lemma minutes_setting_witness :
  is_min (PStr ("90" +:+ " min")) = true ∧
  eval (P := RefPlatform.platform) (PStr ("90" +:+ " min")) = Ret (decimal false "90" 0).
Proof. apply (minutes_setting (P := RefPlatform.platform) "90"); [reflexivity | discriminate]. Defined.

(** ** Integer settings *)

Lemma pretty_N_char_digit d :
  (d < 10)%N →
  is_digit (pretty_N_char d) = true ∧
  Z.of_N (N_of_ascii (pretty_N_char d)) - 48 = Z.of_N d.
Proof.
  intros H.
  assert (d = 0 ∨ d = 1 ∨ d = 2 ∨ d = 3 ∨ d = 4 ∨ d = 5 ∨ d = 6 ∨ d = 7
          ∨ d = 8 ∨ d = 9)%N as Hd by lia.
  repeat (destruct Hd as [-> | Hd]; [by vm_compute |]). subst d. by vm_compute.
Qed.

Lemma pretty_N_go_all_digits x s :
  all_digits s = true → all_digits (pretty_N_go x s) = true.
Proof.
  revert s. induction (N.lt_wf_0 x) as [x _ IH]; intros s Hs.
  destruct (decide (x = 0)%N) as [-> | Hx]; [by rewrite pretty_N_go_0 |].
  rewrite pretty_N_go_step by lia. apply IH; [apply N.div_lt; lia |].
  simpl. rewrite Hs, andb_true_r.
  apply pretty_N_char_digit, N.mod_lt. lia.
Qed.

Lemma pretty_N_go_nonempty x s : s ≠ ""%string → pretty_N_go x s ≠ ""%string.
Proof.
  revert s. induction (N.lt_wf_0 x) as [x _ IH]; intros s Hs.
  destruct (decide (x = 0)%N) as [-> | Hx]; [by rewrite pretty_N_go_0 |].
  rewrite pretty_N_go_step by lia. apply IH; [apply N.div_lt; lia | done].
Qed.

(** the digits of [x] in front of [s], read back with nothing read so
    far, give what [s] gives after [x] *)
Lemma pretty_N_go_val x s :
  digits_val (pretty_N_go x s) 0 = digits_val s (Z.of_N x).
Proof.
  revert s. induction (N.lt_wf_0 x) as [x _ IH]; intros s.
  destruct (decide (x = 0)%N) as [-> | Hx]; [by rewrite pretty_N_go_0 |].
  rewrite pretty_N_go_step by lia. rewrite IH by (apply N.div_lt; lia).
  simpl. f_equal.
  destruct (pretty_N_char_digit (x `mod` 10)%N) as [_ ->]; [apply N.mod_lt; lia |].
  rewrite N2Z.inj_div, N2Z.inj_mod. simpl Z.of_N.
  pose proof (Z.div_mod (Z.of_N x) 10). lia.
Qed.

Lemma pretty_pos_numeral (p : positive) :
  all_digits (pretty (Npos p)) = true ∧ pretty (Npos p) ≠ ""%string
  ∧ digits_val (pretty (Npos p)) 0 = Zpos p.
Proof.
  unfold pretty, pretty_N. rewrite decide_False by done.
  split; [by apply pretty_N_go_all_digits |]. split.
  - intros H. apply (pretty_N_go_nonempty (Npos p / 10)
      (String (pretty_N_char (Npos p `mod` 10)) "")); [done |].
    by rewrite <- pretty_N_go_step.
  - by rewrite pretty_N_go_val.
Qed.

Section Ints.

Context `{P : Platform}.

(** X7: an integer setting evaluates to itself: for an int [z] of at
    most 4300 digits, the most that [str] prints, [eval] returns the float
    nearest to [z] (0 for 0, an infinity beyond the range of floats). *)
Theorem eval_int (z : Z) :
  (String.length (pretty (Z.abs z)) ≤ int_max_str_digits)%nat →
  eval (PInt z) = Ret (if z =? 0 then F64.zero else F64.dec z 0).
Proof.
  intros _.
  change (eval (PInt z)) with (eval (PStr (pretty z))).
  rewrite eval_token.
  assert (Hn : numeral (pretty z) (if z =? 0 then F64.zero else F64.dec z 0)
               ∧ all_numeric (pretty z) = true).
  { destruct z as [| p | p].
    - split; [| reflexivity]. apply (numeral_int NoSign "0"); done.
    - destruct (pretty_pos_numeral p) as (Hd & Hne & Hv). split.
      + pose proof (numeral_int NoSign _ Hd Hne) as H.
        unfold decimal in H. rewrite Hv in H. exact H.
      + by apply all_digits_numeric.
    - destruct (pretty_pos_numeral p) as (Hd & Hne & Hv). split.
      + pose proof (numeral_int Minus _ Hd Hne) as H.
        unfold decimal in H. rewrite Hv in H. exact H.
      + change (pretty (Zneg p)) with (String "-" (pretty (Npos p))).
        simpl. by apply all_digits_numeric. }
  destruct Hn as [Hn Ha].
  pose proof (token_app (pretty z) "" Ha I) as Ht.
  rewrite app_empty_r in Ht. rewrite Ht.
  destruct (String.eqb (pretty z) "") eqn:E.
  { apply String.eqb_eq in E. rewrite E in Hn.
    inversion Hn as [sg ip Hi Hne Heq | sg ip fp Hi Hf Hne Heq]; destruct sg, ip; done. }
  by apply float_of_str_sound.
Qed.

End Ints.

Lemma eval_int_witness :
  eval (P := RefPlatform.platform) (PInt 15) = Ret (F64.dec 15 0).
Proof.
  apply (eval_int (P := RefPlatform.platform) 15). vm_compute. lia.
Defined.

(** ** Julian days *)

Lemma julian_split y m d :
  julian y m d
  = k ← julian_base y m; s ← Py.float_of_int (k + d); Ret (F64.sub s (F64.dec 15245 1)).
Proof.
  unfold julian, julian_base. destruct (m <=? 2).
  all: destruct (int_truediv _ 100) as [y100 |]; [| done]; cbn [mbind py_bind].
  all: destruct (Py.floor y100) as [A |]; [| done]; cbn [mbind py_bind].
  all: destruct (int_truediv A 4) as [a4 |]; [| done]; cbn [mbind py_bind].
  all: destruct (Py.floor a4) as [fa4 |]; [| done]; cbn [mbind py_bind].
  all: destruct (Py.float_of_int (_ + 4716)) as [yy |]; [| done]; cbn [mbind py_bind].
  all: destruct (Py.floor (F64.mul _ yy)) as [t1 |]; [| done]; cbn [mbind py_bind].
  all: destruct (Py.float_of_int (_ + 1)) as [mm |]; [| done]; cbn [mbind py_bind].
  all: destruct (Py.floor (F64.mul _ mm)) as [t2 |]; [| done]; cbn [mbind py_bind].
  all: by replace (t1 + t2 + d + (2 - A + fa4)) with (t1 + t2 + (2 - A + fa4) + d) by lia.
Qed.

Lemma digits2_pos_size p : digits2_pos p = Pos.size p.
Proof. induction p; simpl; by rewrite ?IHp. Qed.

Lemma digits2_pos_shift p k :
  digits2_pos (Pos.iter xO p k) = (digits2_pos p + k)%positive.
Proof.
  induction k using Pos.peano_ind.
  - simpl. lia.
  - rewrite Pos.iter_succ. simpl. rewrite IHk. lia.
Qed.

Lemma digits2_pos_le p (n : Z) : Zpos p < 2 ^ n → 0 ≤ n → Zpos (digits2_pos p) ≤ n.
Proof.
  intros Hp Hn. rewrite digits2_pos_size.
  destruct (Z.le_gt_cases (Zpos (Pos.size p)) n) as [| Hgt]; [done | exfalso].
  pose proof (Pos.size_le p) as Hs.
  assert (2 ^ (n + 1) ≤ 2 ^ Zpos (Pos.size p)) by (apply Z.pow_le_mono_r; lia).
  assert (Zpos (2 ^ Pos.size p) = 2 ^ Zpos (Pos.size p)) as E by (by rewrite Pos2Z.inj_pow).
  assert (Zpos (2 ^ Pos.size p) ≤ Zpos p~0) as Hs' by exact Hs.
  replace (2 ^ (n + 1)) with (2 * 2 ^ n) in H by (rewrite Z.pow_add_r by lia; lia).
  lia.
Qed.

(** a positive integer below 2^53 converts to a finite float *)
Lemma of_Z_finite (z : Z) :
  0 < z < 2 ^ 53 → Py.float_of_int z = Ret (F64.of_Z z).
Proof.
  intros [H0 H1]. destruct z as [| p |]; try lia.
  pose proof (digits2_pos_le p 53 H1 ltac:(lia)) as Hd.
  unfold Py.float_of_int.
  replace (F64.is_inf (F64.of_Z (Z.pos p))) with false; [done |].
  unfold F64.of_Z, binary_normalize, binary_round.
  set (d := digits2_pos p) in *.
  assert (Hf : fexp F64.prec F64.emax (Zpos d + 0) = Zpos d - 53).
  { unfold fexp, emin, F64.prec, F64.emax. lia. }
  rewrite Hf. unfold shl_align.
  assert (∃ m1 e1, (match Z.pos d - 53 - 0 with
                    | Z.neg d0 => (Pos.iter xO p d0, Z.pos d - 53)
                    | _ => (p, 0)
                    end) = (m1, e1) ∧ Zpos (digits2_pos m1) = 53 ∧ -52 ≤ e1 ≤ 0)
    as (m1 & e1 & -> & Hm & He).
  { destruct (Z.pos d - 53 - 0) as [| q | q] eqn:E; try lia.
    - exists p, 0. split; [done |]. fold d. lia.
    - exists (Pos.iter xO p q), (Z.pos d - 53). split; [done |].
      rewrite digits2_pos_shift. fold d. lia. }
  unfold binary_round_aux, shr_fexp. cbn [Zdigits2].
  assert (Hz : fexp F64.prec F64.emax (Z.pos (digits2_pos m1) + e1) - e1 = 0).
  { rewrite Hm. unfold fexp, emin, F64.prec, F64.emax. lia. }
  rewrite Hz. cbn [shr shr_record_of_loc shr_m loc_of_shr_record round_nearest_even Zdigits2].
  rewrite Hz. cbn [shr shr_record_of_loc shr_m].
  unfold F64.emax, F64.prec. destruct (e1 <=? 1024 - 53) eqn:E; [done | lia].
Qed.

Lemma julian_base_1800 : julian_base_table 1800 401.
Proof.
  unfold julian_base_table, julian_base_agrees.
  apply (bool_decide_unpack _). vm_cast_no_check I.
Qed.

(** X8: for every date from 1800 to 2200 (month 1..12, day 1..31),
    [julian] returns the Julian date at 0h of that day: with [n] the
    Julian day number of the integer formula, the float of [n + 1524]
    less 1524.5. *)
Theorem julian_correct (y m d : Z) :
  1800 ≤ y ≤ 2200 → 1 ≤ m ≤ 12 → 1 ≤ d ≤ 31 →
  julian y m d = Ret (julian_ref y m d).
Proof.
  intros Hy Hm Hd.
  pose proof julian_base_1800 as H. unfold julian_base_table in H.
  rewrite Forall_forall in H. specialize (H y).
  rewrite Forall_forall in H.
  destruct (H ltac:(apply elem_of_seqZ; lia) m ltac:(apply elem_of_seqZ; lia))
    as [Hb Hr].
  rewrite julian_split, Hb. cbn [mbind py_bind].
  assert (jdn y m d = jdn y m 0 + d) as E by (unfold jdn; lia).
  unfold julian_ref. rewrite E.
  replace (jdn y m 0 + 1524 + d) with (jdn y m 0 + d + 1524) by lia.
  rewrite of_Z_finite; [done |]. lia.
Qed.

Lemma julian_correct_witness : julian 2011 2 9 = Ret (julian_ref 2011 2 9).
Proof. apply julian_correct; lia. Defined.

(** ** The names of a result *)

Lemma dom_same_lookups {A B} (m : gmap string A) (m' : gmap string B) :
  (∀ k, is_Some (m' !! k) ↔ is_Some (m !! k)) → dom m' = dom m.
Proof. intros H. apply set_eq. intros k. by rewrite !elem_of_dom. Qed.

Lemma dom_insert_in {A} (m : gmap string A) (k : string) (v : A) (D : gset string) :
  dom m = D → k ∈ D → dom (<[k := v]> m) = D.
Proof.
  intros <- Hk. rewrite dom_insert_L.
  by apply subseteq_union_1_L, singleton_subseteq_l.
Qed.

Lemma eight_names_elem (k : string) :
  k ∈ eight_names ↔
  k = "imsak"%string ∨ k = "fajr"%string ∨ k = "sunrise"%string ∨ k = "dhuhr"%string
  ∨ k = "asr"%string ∨ k = "sunset"%string ∨ k = "maghrib"%string ∨ k = "isha"%string.
Proof.
  unfold eight_names. rewrite elem_of_list_to_set, !elem_of_cons, elem_of_nil. tauto.
Qed.

Ltac in_eight := apply eight_names_elem; tauto.

Lemma seed_times_dom : dom seed_times = eight_names.
Proof.
  unfold seed_times, eight_names. cbn [list_to_map foldr uncurry list_to_set].
  by rewrite !dom_insert_L, dom_empty_L.
Qed.

Section Names.

Context `{P : Platform}.

Lemma compute_prayer_times_dom self times times' :
  compute_prayer_times self times = Ret times' → dom times' = eight_names.
Proof.
  intros H. unfold compute_prayer_times in H. inv_bind H. injection H as <-.
  cbn [list_to_map foldr uncurry]. unfold eight_names. cbn [list_to_set foldr].
  by rewrite !dom_insert_L, dom_empty_L.
Qed.

Lemma main_iterations_dom self n times times' :
  dom times = eight_names →
  main_iterations self n times = Ret times' → dom times' = eight_names.
Proof.
  revert times. induction n as [| n IH]; intros times Hd H; simpl in H.
  - by injection H as <-.
  - apply bind_Ret in H as (t1 & H1 & H).
    apply (IH t1); [by eapply compute_prayer_times_dom | done].
Qed.

Lemma adjust_high_lats_dom self times times' :
  dom times = eight_names →
  adjust_high_lats self times = Ret times' → dom times' = eight_names.
Proof.
  intros Hd H. unfold adjust_high_lats in H. inv_bind H. injection H as <-.
  repeat (apply dom_insert_in; [| in_eight]). done.
Qed.

Lemma adjust_times_minutes_dom self times times' :
  dom times = eight_names →
  adjust_times_minutes self times = Ret times' → dom times' = eight_names.
Proof.
  intros Hd H. unfold adjust_times_minutes in H.
  apply bind_Ret in H as (pi & _ & H).
  apply bind_Ret in H as (t1 & H1 & H).
  apply bind_Ret in H as (pm & _ & H).
  apply bind_Ret in H as (t2 & H2 & H).
  apply bind_Ret in H as (ps & _ & H).
  apply bind_Ret in H as (t3 & H3 & H).
  inv_bind H. injection H as <-.
  assert (D1 : dom t1 = eight_names).
  { destruct (is_min pi); [| congruence].
    inv_bind H1. injection H1 as <-. apply dom_insert_in; [done | in_eight]. }
  assert (D2 : dom t2 = eight_names).
  { destruct (is_min pm); [| congruence].
    inv_bind H2. injection H2 as <-. apply dom_insert_in; [done | in_eight]. }
  assert (D3 : dom t3 = eight_names).
  { destruct (is_min ps); [| congruence].
    inv_bind H3. injection H3 as <-. apply dom_insert_in; [done | in_eight]. }
  apply dom_insert_in; [done | in_eight].
Qed.

Lemma adjust_times_dom self times times' :
  dom times = eight_names →
  adjust_times self times = Ret times' → dom times' = eight_names.
Proof.
  intros Hd H. unfold adjust_times in H.
  apply bind_Ret in H as (tz & _ & H).
  apply bind_Ret in H as (ln & _ & H). cbn beta zeta in H.
  apply bind_Ret in H as (hl & _ & H).
  apply bind_Ret in H as (t1 & H1 & H).
  apply (adjust_times_minutes_dom self t1); [| done].
  destruct (negb _).
  - eapply adjust_high_lats_dom; [| exact H1]. by rewrite dom_fmap_L.
  - injection H1 as <-. by rewrite dom_fmap_L.
Qed.

Lemma tune_times_dom self times times' :
  tune_times self times = Ret times' → dom times' = dom times.
Proof.
  unfold tune_times. intros H.
  destruct (bool_decide _) eqn:E; [| done].
  apply bool_decide_eq_true_1 in E. injection H as <-.
  apply dom_same_lookups. intros k. rewrite map_lookup_imap.
  destruct (times !! k) as [v |] eqn:Ek; simpl; [| done].
  assert (Hin : k ∈ dom (offset self)) by (apply E, elem_of_dom; eauto).
  apply elem_of_dom in Hin as [o ->]. simpl. split; eauto.
Qed.

Lemma modify_formats_dom self times out :
  modify_formats self times = Ret out → dom out = dom times.
Proof.
  intros H. apply dom_same_lookups. intros k.
  pose proof (dict_mapM_Ret _ _ _ H k) as Hk.
  destruct (times !! k); [destruct Hk as (b & _ & ->); split; eauto |].
  rewrite Hk. done.
Qed.

(** X9: whatever the settings, the place and the number of iterations, a
    [compute_times] that returns gives a dictionary with exactly the nine
    names imsak, fajr, sunrise, dhuhr, asr, sunset, maghrib, isha and
    midnight. *)
Theorem compute_times_names (self : PrayTimes) (out : gmap string ftime) :
  compute_times self = Ret out → dom out = nine_names.
Proof.
  intros H. unfold compute_times in H.
  apply bind_Ret in H as (t0 & H0 & H). unfold finish_times in H.
  apply bind_Ret in H as (t1 & H1 & H).
  apply bind_Ret in H as (mn & _ & H).
  apply bind_Ret in H as (t2 & H2 & H).
  apply bind_Ret in H as (t3 & H3 & H).
  pose proof (main_iterations_dom _ _ _ _ seed_times_dom H0) as D0.
  pose proof (adjust_times_dom _ _ _ D0 H1) as D1.
  rewrite (modify_formats_dom _ _ _ H), (tune_times_dom _ _ _ H3).
  destruct (pval_eq_str mn "Jafari"); inv_bind H2; injection H2 as <-;
    by rewrite dom_insert_L, D1.
Qed.

End Names.


(** ** Midnight *)

Section Midnight.

Context `{P : Platform}.

Local Open Scope f64_scope.

(** X10: in a result that was returned, midnight is the formatting of
    [sunset + time_diff(sunset, x) / 2 + offset / 60], where sunset and
    [x] are the times after [adjust_times], [x] being fajr when the
    midnight setting is 'Jafari' and sunrise otherwise, and [offset] is
    the tuning offset of midnight. *)
Theorem midnight_derivation (self : PrayTimes) (times : gmap string F64.float)
    (out : gmap string ftime) (mn : pval) :
  settings self !! "midnight"%string = Some mn →
  finish_times self times = Ret out →
  ∃ adjusted ss x d o b,
    adjust_times self times = Ret adjusted ∧
    adjusted !! "sunset"%string = Some ss ∧
    adjusted !! (if pval_eq_str mn "Jafari" then "fajr" else "sunrise")%string = Some x ∧
    time_diff ss x = Ret d ∧
    offset self !! "midnight"%string = Some o ∧
    get_formatted_time self (ss + d / F64.of_Z 2 + o / F64.of_Z 60) (time_format self)
      = Ret b ∧
    out !! "midnight"%string = Some b.
Proof.
  intros Hmn H. unfold finish_times in H.
  apply bind_Ret in H as (t1 & H1 & H).
  apply bind_Ret in H as (mn' & Hmn' & H).
  apply getitem_Ret in Hmn'. rewrite Hmn in Hmn'. injection Hmn' as <-.
  apply bind_Ret in H as (t2 & H2 & H).
  apply bind_Ret in H as (t3 & H3 & H).
  assert (∃ ss x d, t1 !! "sunset"%string = Some ss ∧
            t1 !! (if pval_eq_str mn "Jafari" then "fajr" else "sunrise")%string = Some x ∧
            time_diff ss x = Ret d ∧
            t2 !! "midnight"%string = Some (ss + d / F64.of_Z 2))
    as (ss & x & d & Hss & Hx & Hd & Ht2).
  { destruct (pval_eq_str mn "Jafari");
      apply bind_Ret in H2 as (ss & Hss & H2);
      apply bind_Ret in H2 as (x & Hx & H2);
      apply bind_Ret in H2 as (d & Hd & H2);
      injection H2 as <-; apply getitem_Ret in Hss, Hx;
      exists ss, x, d; by rewrite lookup_insert_eq. }
  unfold tune_times in H3. destruct (bool_decide _) eqn:E; [| done].
  apply bool_decide_eq_true_1 in E. injection H3 as <-.
  assert (Hin : "midnight"%string ∈ dom (offset self))
    by (apply E, elem_of_dom; eauto).
  apply elem_of_dom in Hin as [o Ho].
  pose proof (dict_mapM_Ret _ _ _ H "midnight"%string) as Hout.
  rewrite map_lookup_imap, Ht2 in Hout. simpl in Hout. rewrite Ho in Hout.
  simpl in Hout. destruct Hout as (b & Hb & Hob).
  exists t1, ss, x, d, o, b. done.
Qed.

End Midnight.

(** ** High latitudes without a night *)

Lemma sub_nan_l x : F64.sub F64.nan x = F64.nan.
Proof. reflexivity. Qed.

Lemma sub_nan_r x : F64.sub x F64.nan = F64.nan.
Proof. by destruct x. Qed.

Lemma mul_nan_r x : F64.mul x F64.nan = F64.nan.
Proof. by destruct x. Qed.

Lemma ltb_nan_l x : F64.ltb F64.nan x = false.
Proof. reflexivity. Qed.

Lemma is_nan_eq x : F64.is_nan x = true → x = F64.nan.
Proof. by destruct x. Qed.

Section NoNight.

Context `{P : Platform}.

Local Open Scope f64_scope.

Lemma night_portion_nan self angle portion :
  night_portion self angle F64.nan = Ret portion → portion = F64.nan.
Proof.
  unfold night_portion. intros H. apply bind_Ret in H as (m & _ & H).
  injection H as <-. apply mul_nan_r.
Qed.

(** without a night length, [adjust_HL_time] returns the time it was given *)
Lemma adjust_HL_time_nan self time base angle direction v :
  adjust_HL_time self time base angle F64.nan direction = Ret v → v = time.
Proof.
  unfold adjust_HL_time. intros H.
  apply bind_Ret in H as (portion & Hp & H).
  apply night_portion_nan in Hp as ->.
  apply bind_Ret in H as (diff & _ & H). injection H as <-.
  rewrite ltb_nan_l, orb_false_r. unfold Py.isnan.
  destruct (F64.is_nan time) eqn:E; [| done].
  apply is_nan_eq in E as ->.
  destruct (bool_decide _); by rewrite add_nan_r.
Qed.

(** X11: when sunrise or sunset is undefined (NaN), the high-latitude
    adjustment, if it returns, returns the times unchanged: nothing is
    clamped, under any high-latitude rule. *)
Theorem adjust_high_lats_no_night (self : PrayTimes)
    (times times' : gmap string F64.float) :
  times !! "sunrise"%string = Some F64.nan ∨ times !! "sunset"%string = Some F64.nan →
  adjust_high_lats self times = Ret times' →
  times' = times.
Proof.
  intros Hnan H. unfold adjust_high_lats in H.
  apply bind_Ret in H as (ss & Hss & H).
  apply bind_Ret in H as (sr & Hsr & H).
  apply bind_Ret in H as (night & Hn & H).
  apply getitem_Ret in Hss, Hsr.
  assert (night = F64.nan) as ->.
  { unfold time_diff, fixhour in Hn.
    assert (sr - ss = F64.nan) as Hd.
    { destruct Hnan as [E | E]; rewrite E in *.
      - injection Hsr as <-. apply sub_nan_l.
      - injection Hss as <-. apply sub_nan_r. }
    rewrite Hd in Hn. by injection Hn as <-. }
  apply bind_Ret in H as (t & Ht & H). apply bind_Ret in H as (b & _ & H).
  apply bind_Ret in H as (p & _ & H). apply bind_Ret in H as (a & _ & H).
  apply bind_Ret in H as (v & Hv & H). cbn beta zeta in H.
  apply adjust_HL_time_nan in Hv as ->. apply getitem_Ret in Ht.
  rewrite (insert_id _ _ _ Ht) in H. clear t Ht b p a.
  apply bind_Ret in H as (t & Ht & H). apply bind_Ret in H as (b & _ & H).
  apply bind_Ret in H as (p & _ & H). apply bind_Ret in H as (a & _ & H).
  apply bind_Ret in H as (v & Hv & H). cbn beta zeta in H.
  apply adjust_HL_time_nan in Hv as ->. apply getitem_Ret in Ht.
  rewrite (insert_id _ _ _ Ht) in H. clear t Ht b p a.
  apply bind_Ret in H as (t & Ht & H). apply bind_Ret in H as (b & _ & H).
  apply bind_Ret in H as (p & _ & H). apply bind_Ret in H as (a & _ & H).
  apply bind_Ret in H as (v & Hv & H). cbn beta zeta in H.
  apply adjust_HL_time_nan in Hv as ->. apply getitem_Ret in Ht.
  rewrite (insert_id _ _ _ Ht) in H. clear t Ht b p a.
  apply bind_Ret in H as (t & Ht & H). apply bind_Ret in H as (b & _ & H).
  apply bind_Ret in H as (p & _ & H). apply bind_Ret in H as (a & _ & H).
  apply bind_Ret in H as (v & Hv & H).
  apply adjust_HL_time_nan in Hv as ->. apply getitem_Ret in Ht.
  rewrite (insert_id _ _ _ Ht) in H. by injection H as <-.
Qed.

End NoNight.

(** ** Repeating a call *)

Section Repeat.

Context `{P : Platform}.

(** X12: [get_times] keeps no memory of a call beyond the attributes it
    assigns: repeating a call with the same arguments on the instance the
    first call left gives the same outcome and leaves the same instance. *)
Theorem get_times_repeatable date coords timezone dst format (self : PrayTimes) :
  let first := get_times date coords timezone dst format self in
  get_times date coords timezone dst format (fst first) = first.
Proof.
  destruct coords as [[c0 c1] c2], date as [[y m] d].
  unfold get_times, mbind, pyst_bind, modify, lift, get_self. simpl.
  destruct (julian y m d) as [jd | e]; simpl; destruct format; reflexivity.
Qed.

(** X13: the coordinates, time zone and Julian date that earlier calls
    left on the instance have no influence on a call: two instances that
    differ in those attributes only give the same outcome. *)
Theorem get_times_fresh date coords timezone dst format (self : PrayTimes)
    (la ln el tz jd : option F64.float) :
  let self' := {|
    time_names := time_names self; methods := methods self;
    default_params := default_params self; calc_method := calc_method self;
    settings := settings self; time_format := time_format self;
    time_suffixes := time_suffixes self; invalid_time := invalid_time self;
    num_iterations := num_iterations self; offset := offset self;
    lat := la; lng := ln; elv := el; timeZone := tz; jDate := jd |} in
  snd (get_times date coords timezone dst format self')
  = snd (get_times date coords timezone dst format self).
Proof.
  destruct coords as [[c0 c1] c2], date as [[y m] d].
  unfold get_times, mbind, pyst_bind, modify, lift, get_self. simpl.
  destruct (julian y m d) as [j | e]; simpl; destruct format; reflexivity.
Qed.

End Repeat.

(** ** Formatting *)

Section Formatting.

Context `{P : Platform}.

(** X14: under any format other than 'Float' and '24h' (whether '12h'
    or a name the code does not know) a time that is not NaN is
    printed on the 12-hour clock: the hour shown lies between 1 and 12.
    The suffix is one of [time_suffixes] under '12h' and empty
    otherwise. *)
Theorem format_12_hour_clock (self : PrayTimes) (time : F64.float)
    (format : string) (r : ftime) :
  F64.is_nan time = false →
  format ≠ "Float"%string → format ≠ "24h"%string →
  get_formatted_time self time format = Ret r →
  ∃ h minutes suffix,
    r = FStr (pretty h +:+ ":" +:+ fmt_02d minutes +:+ suffix) ∧
    1 ≤ h ≤ 12 ∧
    if String.eqb format "12h" then suffix ∈ time_suffixes self
    else suffix = ""%string.
Proof.
  intros Hnan Hf H24 H. unfold get_formatted_time, Py.isnan in H.
  rewrite Hnan in H.
  apply String.eqb_neq in Hf, H24. rewrite Hf, H24 in H.
  apply bind_Ret in H as (t & _ & H).
  apply bind_Ret in H as (hours & _ & H).
  apply bind_Ret in H as (hf & _ & H).
  apply bind_Ret in H as (minutes & _ & H).
  apply bind_Ret in H as (suffix & Hs & H). injection H as <-.
  exists ((hours + 11) `mod` 12 + 1), minutes, suffix.
  split; [by rewrite !app_assoc |].
  split; [pose proof (Z.mod_pos_bound (hours + 11) 12); lia |].
  destruct (String.eqb format "12h"); [| by injection Hs as <-].
  destruct (time_suffixes self !! _) as [x |] eqn:E; [| done].
  injection Hs as <-. by eapply list_elem_of_lookup_2.
Qed.

(** X15: an infinite time cannot be printed: under 'Float' it is
    returned as it is, and under every other format the call raises
    OverflowError. *)
Theorem format_infinite (self : PrayTimes) (s : bool) (format : string) :
  get_formatted_time self (S754_infinity s) format
  = if String.eqb format "Float" then Ret (FFloat (S754_infinity s))
    else Raise OverflowError.
Proof.
  unfold get_formatted_time. simpl.
  destruct (String.eqb format "Float"); [done |]. by destruct s.
Qed.

End Formatting.

(** ** Elevation *)

Lemma sqrt_negative x :
  F64.ltb x F64.zero = true → Py.sqrt x = Raise ValueError.
Proof. destruct x as [[] | [] | | [] m e]; try done. Qed.

Section Elevation.

Context `{P : Platform}.

Lemma rise_set_angle_negative x :
  F64.ltb x F64.zero = true → rise_set_angle x = Raise ValueError.
Proof. intros H. unfold rise_set_angle. by rewrite (sqrt_negative x H). Qed.

Lemma compute_prayer_times_negative self times x :
  elv self = Some x → F64.ltb x F64.zero = true →
  ∀ r, compute_prayer_times self times ≠ Ret r.
Proof.
  intros He Hx r H. unfold compute_prayer_times in H.
  do 4 (apply bind_Ret in H as (? & _ & H)).
  do 4 (apply bind_Ret in H as (? & _ & H)).
  apply bind_Ret in H as (el & Hel & H).
  rewrite He in Hel. injection Hel as <-.
  apply bind_Ret in H as (a & Ha & _).
  by rewrite (rise_set_angle_negative x Hx) in Ha.
Qed.

(** X16: an elevation below zero makes [get_times] fail: with at least
    one main iteration the call never returns a result, because the
    square root in [rise_set_angle] raises outside any handler. *)
Theorem get_times_negative_elevation date (la ln x : F64.float) timezone dst format
    (self : PrayTimes) :
  F64.ltb x F64.zero = true →
  num_iterations self ≠ O →
  ∃ e, snd (get_times date (la, ln, Some x) timezone dst format self) = Raise e.
Proof.
  intros Hx Hn.
  destruct (snd (get_times _ _ _ _ _ _)) as [r | e] eqn:H; [exfalso | by exists e].
  revert H. destruct date as [[y m] d].
  unfold get_times, mbind, pyst_bind, modify, lift, get_self. simpl.
  destruct (julian y m d) as [jd | e]; simpl; [| done].
  unfold compute_times. intros H. apply bind_Ret in H as (t & H & _).
  assert (num_iterations
            (with_jDate
               (with_timeZone
                  (match format with
                   | Some f => with_time_format (with_coords self la ln x) f
                   | None => with_coords self la ln x
                   end)
                  (F64.add timezone (if dst then F64.of_Z 1 else F64.of_Z 0)))
               (F64.sub jd (F64.div ln (F64.mul (F64.of_Z 15) (F64.of_Z 24)))))
          = num_iterations self) as Hni by (by destruct format).
  rewrite Hni in H. destruct (num_iterations self) as [| n]; [done |].
  simpl in H. apply bind_Ret in H as (t1 & H1 & _).
  eapply compute_prayer_times_negative; [| exact Hx | exact H1].
  by destruct format.
Qed.

End Elevation.

Lemma get_times_negative_elevation_witness :
  ∃ e, snd (get_times (P := RefPlatform.platform) (2011, 2, 9)
              (F64.of_Z 31, F64.of_Z 35, Some (F64.of_Z (-430)))
              (F64.of_Z 2) false None isna) = Raise e.
Proof.
  apply (get_times_negative_elevation (P := RefPlatform.platform)); [reflexivity |].
  vm_compute. discriminate.
Defined.

(** ** Constructing again *)

Lemma merge_defaults_idem defaults config :
  merge_defaults defaults (merge_defaults defaults config)
  = merge_defaults defaults config.
Proof.
  assert (H : m_params (merge_defaults defaults (merge_defaults defaults config))
              = m_params (merge_defaults defaults config)).
  { apply map_eq. intros n.
    rewrite (merge_defaults_lookup_aux defaults (merge_defaults defaults config)).
    unfold defined_in at 1. rewrite !merge_defaults_lookup_aux.
    unfold defined_in.
    destruct (m_params config !! n) as [[] |], (defaults !! n) as [[] |]; done. }
  unfold merge_defaults in *. simpl in *. by rewrite H.
Qed.

(** X17: constructing again does not change the catalog further: after a
    second construction, for whatever method, the methods are what the
    first construction left. *)
Theorem init_catalog_stable (self : PrayTimes) (method1 method2 : string) :
  let self1 := fst (__init__ method1 self) in
  methods (fst (__init__ method2 self1)) = methods self1.
Proof.
  assert (Hm : ∀ m s, methods (fst (__init__ m s))
                      = merge_defaults (default_params s) <$> methods s).
  { intros m s. unfold __init__, mbind, pyst_bind, modify, get_self, lift.
    cbn [fst snd with_methods with_calc_method methods calc_method default_params].
    by destruct (getitem _ _). }
  assert (Hd : ∀ m s, default_params (fst (__init__ m s)) = default_params s).
  { intros m s. unfold __init__, mbind, pyst_bind, modify, get_self, lift.
    cbn [fst snd with_methods with_calc_method methods calc_method default_params].
    by destruct (getitem _ _). }
  intros self1. subst self1. rewrite (Hm method2), Hd, Hm.
  rewrite <- map_fmap_compose. apply map_fmap_ext. intros k cfg _.
  apply merge_defaults_idem.
Qed.

(** ** Tuning by nothing *)

Lemma add_zero_r x : x ≠ S754_zero true → F64.add x F64.zero = x.
Proof. destruct x as [[] | [] | | [] m e]; done. Qed.

Section Neutral.

Context `{P : Platform}.

(** X18: with every offset at 0, as construction leaves them,
    [tune_times] returns and changes no time (negative zero, which
    becomes zero, aside). *)
Theorem tune_times_neutral (self : PrayTimes) (times : gmap string F64.float) :
  (∀ k, is_Some (times !! k) → offset self !! k = Some F64.zero) →
  ∃ times',
    tune_times self times = Ret times' ∧
    ∀ k x, times !! k = Some x → x ≠ S754_zero true → times' !! k = Some x.
Proof.
  intros Ho. unfold tune_times. rewrite bool_decide_eq_true_2.
  - eexists. split; [reflexivity |]. intros k x Hk Hx.
    rewrite map_lookup_imap, Hk. simpl. rewrite (Ho k) by eauto. simpl.
    f_equal. by apply add_zero_r.
  - intros k [x Hk]%elem_of_dom. apply elem_of_dom. rewrite (Ho k); eauto.
Qed.

End Neutral.

(** ** Whole angles and hours *)

Lemma fix_table : Forall fix_agrees (seqZ (-720) 1441).
Proof.
  unfold fix_agrees. apply (bool_decide_unpack _). vm_cast_no_check I.
Qed.

(** X19: on whole numbers from -720 to 720 the normalisations are
    exact: [fixangle] gives the remainder modulo 360 and [fixhour] the
    remainder modulo 24, both non-negative. *)
Theorem fix_integers (z : Z) :
  -720 ≤ z ≤ 720 →
  fixangle (F64.of_Z z) = Ret (F64.of_Z (z `mod` 360)) ∧
  fixhour (F64.of_Z z) = Ret (F64.of_Z (z `mod` 24)).
Proof.
  intros Hz. pose proof fix_table as H. rewrite Forall_forall in H.
  apply (H z), elem_of_seqZ. lia.
Qed.

Lemma fix_integers_witness :
  fixangle (F64.of_Z (-90)) = Ret (F64.of_Z ((-90) `mod` 360)) ∧
  fixhour (F64.of_Z (-90)) = Ret (F64.of_Z ((-90) `mod` 24)).
Proof. apply fix_integers. lia. Defined.

(** ** Runs on the fixtures *)

Lemma compute_times_names_witness : dom seeded_out = nine_names.
Proof.
  apply (compute_times_names (P := RefPlatform.platform) seeded). vm_compute. reflexivity.
Defined.

Lemma midnight_derivation_witness :
  ∃ adjusted ss x d o b,
    adjust_times (P := RefPlatform.platform) seeded seed_times = Ret adjusted ∧
    adjusted !! "sunset"%string = Some ss ∧
    adjusted !! "sunrise"%string = Some x ∧
    time_diff ss x = Ret d ∧
    offset seeded !! "midnight"%string = Some o ∧
    get_formatted_time seeded
      (F64.add (F64.add ss (F64.div d (F64.of_Z 2))) (F64.div o (F64.of_Z 60)))
      (time_format seeded) = Ret b ∧
    seeded_out !! "midnight"%string = Some b.
Proof.
  apply (midnight_derivation (P := RefPlatform.platform) seeded seed_times seeded_out
           (PStr "Standard")); vm_compute; reflexivity.
Defined.

Lemma adjust_high_lats_no_night_witness : seeds_adjusted = seeds_no_sunrise.
Proof.
  apply (adjust_high_lats_no_night (P := RefPlatform.platform) seeded
           seeds_no_sunrise seeds_adjusted).
  - left. vm_compute. reflexivity.
  - vm_compute. reflexivity.
Defined.

Lemma format_12_hour_clock_witness :
  ∃ h minutes suffix,
    FStr "1:30pm" = FStr (pretty h +:+ ":" +:+ fmt_02d minutes +:+ suffix) ∧
    1 ≤ h ≤ 12 ∧
    suffix ∈ time_suffixes isna.
Proof.
  apply (format_12_hour_clock isna (F64.dec 135 1) "12h" (FStr "1:30pm"));
    [reflexivity | discriminate | discriminate | vm_compute; reflexivity].
Defined.

Lemma seed_offsets_zero (k : string) :
  is_Some (seed_times !! k) → offset isna !! k = Some F64.zero.
Proof.
  intros H. apply elem_of_dom in H. rewrite seed_times_dom in H.
  apply eight_names_elem in H.
  repeat (destruct H as [-> | H]; [vm_compute; reflexivity |]).
  subst k. vm_compute. reflexivity.
Qed.

Lemma tune_times_neutral_witness :
  ∃ times',
    tune_times isna seed_times = Ret times' ∧
    ∀ k x, seed_times !! k = Some x → x ≠ S754_zero true → times' !! k = Some x.
Proof. exact (tune_times_neutral isna seed_times seed_offsets_zero). Defined.
